(** * ai-research-agent: the research workflow, its aggregator and its record store

    A shallow embedding of the backend of the repository
    ([app/services/external_apis.py], [app/services/research.py],
    [app/tasks/research_workflow.py], [app/api/routes/research.py],
    [app/models/research.py]) and the properties its specification states
    about them.

    Conventions of the embedding.
    - A Python [str] is a [string]; each [ascii] is one code point in
      U+0000..U+00FF, with Python's own classification of those code points
      ([str.isspace], the [\w] and [\s] classes of [re], [str.lower]).
      [len] is [String.length].
    - Python integers are [Z]; lengths and row ids are [nat].
    - A dict that is only ever built with a fixed set of keys is a record;
      a dict used as a counter keeps its insertion order and is an
      association list; JSON columns hold a [json] value.
    - The record store is a value of type [DB] threaded through a state and
      exception monad; a commit is the state update itself, so an exception
      leaves every earlier write in place, as the per-operation commits of
      the source do. *)

From Stdlib Require Import ZArith Ascii String List Bool Lia Sorted.
From stdpp Require Import base decidable option list sorting gmap strings pretty.

Import ListNotations.
Local Open Scope string_scope.
Local Open Scope list_scope.
Local Open Scope Z_scope.

(** ** Python string primitives *)

Module PyStr.

Definition code (c : ascii) : N := N_of_ascii c.

Definition between (lo hi : N) (c : ascii) : bool :=
  ((lo <=? code c) && (code c <=? hi))%N.

(** [str.isspace] on one code point; also the class [\s] of [re]. *)
Definition isspace (c : ascii) : bool :=
  between 9 13 c || between 28 32 c || (code c =? 133)%N || (code c =? 160)%N.

(** The class [\w] of [re] on a [str] pattern: alphanumeric or underscore. *)
Definition isword (c : ascii) : bool :=
  between 48 57 c || between 65 90 c || between 97 122 c || (code c =? 95)%N
  || (code c =? 170)%N || between 178 179 c || (code c =? 181)%N
  || between 185 186 c || between 188 190 c
  || between 192 214 c || between 216 246 c || between 248 255 c.

Definition lower_char (c : ascii) : ascii :=
  if between 65 90 c || between 192 214 c || between 216 222 c
  then ascii_of_N (code c + 32) else c.

Fixpoint map_chars (f : ascii -> ascii) (s : string) : string :=
  match s with
  | EmptyString => EmptyString
  | String c s' => String (f c) (map_chars f s')
  end.

(** [s.lower()] *)
Definition lower (s : string) : string := map_chars lower_char s.

(** [s.lstrip()] *)
Fixpoint lstrip (s : string) : string :=
  match s with
  | EmptyString => EmptyString
  | String c s' => if isspace c then lstrip s' else s
  end.

(** [s.rstrip()] *)
Fixpoint rstrip (s : string) : string :=
  match s with
  | EmptyString => EmptyString
  | String c s' =>
      match rstrip s' with
      | EmptyString => if isspace c then EmptyString else String c EmptyString
      | r => String c r
      end
  end.

(** [s.strip()] *)
Definition strip (s : string) : string := lstrip (rstrip s).

(** Truthiness of a [str]: [if s:] *)
Definition truthy (s : string) : bool :=
  match s with EmptyString => false | _ => true end.

Definition push_word (w : string) (ws : list string) : list string :=
  if truthy w then w :: ws else ws.

Fixpoint split_go (s : string) : string * list string :=
  match s with
  | EmptyString => (EmptyString, [])
  | String c s' =>
      let '(w, ws) := split_go s' in
      if isspace c then (EmptyString, push_word w ws) else (String c w, ws)
  end.

(** [s.split()]: the maximal runs of non-whitespace, in order. *)
Definition split (s : string) : list string :=
  let '(w, ws) := split_go s in push_word w ws.

(** [sep.join(parts)] *)
Definition join (sep : string) (parts : list string) : string :=
  String.concat sep parts.

(** [s[:n]] for [n >= 0] *)
Definition take (n : nat) (s : string) : string := String.substring 0 n s.

(** [re.sub(r'[^\w\s]', ' ', s)] *)
Definition sub_nonword (s : string) : string :=
  map_chars (fun c => if isword c || isspace c then c else " "%char) s.

Definition is_terminator (c : ascii) : bool :=
  (c =? ".")%char || (c =? "!")%char || (c =? "?")%char.

(** [re.split(r'[.!?]+', s)]: the pieces between maximal runs of
    terminators; a run at either end leaves an empty piece there.
    [in_run] tells that the character before [s] was a terminator. *)
Fixpoint split_runs (in_run : bool) (s : string) : list string :=
  match s with
  | EmptyString => [EmptyString]
  | String c s' =>
      if is_terminator c then
        if in_run then split_runs true s' else EmptyString :: split_runs true s'
      else
        match split_runs false s' with
        | p :: ps => String c p :: ps
        | [] => [String c EmptyString]
        end
  end.

Definition re_split_terminators (s : string) : list string := split_runs false s.

End PyStr.

(** ** Python's stable sort with [reverse=True]

    [sorted(xs, key=key, reverse=True)] and [xs.sort(key=key, reverse=True)]
    order by descending key and keep the original order of elements whose
    keys are equal.  There is one list with these two properties, so the
    sorting algorithm does not matter; the model inserts from the right. *)

Section PySort.
Context {A : Type} (key : A -> Z).

Fixpoint insert_desc (x : A) (l : list A) : list A :=
  match l with
  | [] => [x]
  | y :: l' => if key x <? key y then y :: insert_desc x l' else x :: l
  end.

Definition sorted_reverse (l : list A) : list A := fold_right insert_desc [] l.
End PySort.

(** ** Insertion-ordered counter dicts *)

Module Counter.

Definition t := list (string * Z).

(** [d.get(k, default)] *)
Fixpoint get (k : string) (default : Z) (d : t) : Z :=
  match d with
  | [] => default
  | (k', v) :: d' => if String.eqb k k' then v else get k default d'
  end.

(** [d[k] = v]: an existing key keeps its position, a new key goes last. *)
Fixpoint set (k : string) (v : Z) (d : t) : t :=
  match d with
  | [] => [(k, v)]
  | (k', v') :: d' => if String.eqb k k' then (k', v) :: d' else (k', v') :: set k v d'
  end.

(** [d[k] = d.get(k, 0) + 1] *)
Definition incr (d : t) (k : string) : t := set k (get k 0 d + 1) d.

End Counter.

(** ** [ContentProcessor] *)

Module ContentProcessor.

Definition stop_words : gset string :=
  list_to_set
    ["the"; "a"; "an"; "and"; "or"; "but"; "in"; "on"; "at"; "to"; "for"; "of"; "with";
     "by"; "from"; "up"; "about"; "into"; "through"; "during"; "before"; "after";
     "above"; "below"; "between"; "among"; "is"; "are"; "was"; "were"; "be"; "been";
     "being"; "have"; "has"; "had"; "do"; "does"; "did"; "will"; "would"; "could";
     "should"; "may"; "might"; "must"; "can"; "this"; "that"; "these"; "those";
     "i"; "you"; "he"; "she"; "it"; "we"; "they"; "me"; "him"; "her"; "us"; "them"].

(** The tokens of the text: lower-cased, every character that is neither a
    word character nor whitespace replaced by a space, split on whitespace. *)
Definition tokens (text : string) : list string :=
  PyStr.split (PyStr.sub_nonword (PyStr.lower text)).

(** [len(word) > 3 and word not in stop_words] *)
Definition counted (word : string) : bool :=
  (3 <? String.length word)%nat && negb (bool_decide (word ∈ stop_words)).

(** The loop that fills [word_freq]. *)
Definition count_words (words : list string) : Counter.t :=
  fold_left (fun word_freq word =>
               if counted word then Counter.incr word_freq word else word_freq)
            words [].

Definition extract_keywords (text : string) (max_keywords : nat) : list string :=
  if PyStr.truthy text then
    let word_freq := count_words (tokens text) in
    let sorted_words := sorted_reverse snd word_freq in
    map fst (firstn max_keywords sorted_words)
  else [].

(** The sentences of a text: the pieces of [re.split], stripped, the empty
    ones dropped. *)
Definition sentences (text : string) : list string :=
  List.filter PyStr.truthy (map PyStr.strip (PyStr.re_split_terminators text)).

Definition generate_summary (text : string) (max_sentences : nat) : string :=
  if PyStr.truthy text then
    let sentences := sentences text in
    if (length sentences <=? max_sentences)%nat then
      PyStr.join ". " sentences +:+ "."
    else
      let summary_sentences := firstn max_sentences sentences in
      PyStr.join ". " summary_sentences +:+ "."
  else "".

End ContentProcessor.

(** ** Data model ([app/models/research.py]) *)

Module ResearchStatus.
Inductive t := PENDING | PROCESSING | COMPLETED | FAILED.

End ResearchStatus.

Module WorkflowStep.
Inductive t :=
  INPUT_PARSING | DATA_GATHERING | PROCESSING | RESULT_PERSISTENCE | RETURN_RESULTS.
End WorkflowStep.

#[global] Instance ResearchStatus_eq_dec : EqDecision ResearchStatus.t.
Proof. solve_decision. Defined.

#[global] Instance WorkflowStep_eq_dec : EqDecision WorkflowStep.t.
Proof. solve_decision. Defined.

(** The values of the JSON columns. *)
#[warnings="-register-all"]
Inductive json :=
| JNull
| JBool (b : bool)
| JInt (z : Z)
| JStr (s : string)
| JList (l : list json)
| JDict (d : list (string * json)).

Module Json.
(** Truthiness of an optional dict argument: [if details:] *)
Definition truthy (j : option json) : bool :=
  match j with
  | Some (JDict (_ :: _)) => true
  | _ => false
  end.

Fixpoint lookup (k : string) (d : list (string * json)) : option json :=
  match d with
  | [] => None
  | (k', v) :: d' => if String.eqb k k' then Some v else lookup k d'
  end.

(** [j[k]] on a dict *)
Definition get (k : string) (j : json) : option json :=
  match j with JDict d => lookup k d | _ => None end.

Definition strs (l : list string) : json := JList (map JStr l).
Definition nat (n : nat) : json := JInt (Z.of_nat n).
Definition opt_int (o : option Z) : json :=
  match o with Some z => JInt z | None => JNull end.
End Json.

(** Truthiness of an optional [str] argument: [if message:] *)
Definition truthy_str (o : option string) : bool :=
  match o with Some s => PyStr.truthy s | None => false end.

Module ResearchRequest.
Record t := mk {
  id : nat;
  topic : string;
  status : ResearchStatus.t;
  task_id : option string;
  created_at : Z;
  updated_at : option Z;
  completed_at : option Z;
  results : option json;
  error_message : option string
}.
End ResearchRequest.

Module WorkflowLog.
Record t := mk {
  id : nat;
  research_request_id : nat;
  step : WorkflowStep.t;
  status : string;
  message : option string;
  details : option json;
  started_at : option Z;
  completed_at : option Z;
  duration_ms : option Z
}.
End WorkflowLog.

Module Article.
Record t := mk {
  id : nat;
  research_request_id : nat;
  title : string;
  url : string;
  source : string;
  content : string;
  summary : string;
  keywords : list string;
  published_at : option Z;
  extracted_at : Z;
  relevance_score : Z
}.
End Article.

(** ** Exceptions and the store monad *)

Inductive exn :=
| ValueError (msg : string)
| AttributeError (msg : string)
| Exception (msg : string).

(** [str(e)] *)
Definition str (e : exn) : string :=
  match e with ValueError m | AttributeError m | Exception m => m end.

Inductive outcome (A : Type) :=
| Return (a : A)
| Raise (e : exn).
Arguments Return {A} a.
Arguments Raise {A} e.

(** The record store.  [research_requests] is keyed by primary key;
    [workflow_logs] and [articles] hold their rows in insertion order.
    [clock] is the time in milliseconds that the next reading of the clock
    returns; every reading moves it on.  [status_history] is a history variable: every write to the
    [status] column, in order, with the id of the row written; no operation
    reads it. *)
Record DB := mkDB {
  research_requests : gmap nat ResearchRequest.t;
  workflow_logs : list WorkflowLog.t;
  articles : list Article.t;
  next_request_id : nat;
  next_log_id : nat;
  next_article_id : nat;
  clock : Z;
  status_history : list (nat * ResearchStatus.t)
}.

Definition empty_db : DB := mkDB ∅ [] [] 1 1 1 0 [].

Definition M (A : Type) : Type := DB -> outcome A * DB.

Definition ret {A} (a : A) : M A := fun db => (Return a, db).

Definition bind {A B} (m : M A) (k : A -> M B) : M B :=
  fun db =>
    match m db with
    | (Return a, db') => k a db'
    | (Raise e, db') => (Raise e, db')
    end.

Definition raise {A} (e : exn) : M A := fun db => (Raise e, db).

(** [try: body  except Exception as e: handler(e)] *)
Definition try_except {A} (body : M A) (handler : exn -> M A) : M A :=
  fun db =>
    match body db with
    | (Return a, db') => (Return a, db')
    | (Raise e, db') => handler e db'
    end.

(** [try: body  finally: cleanup]; an exception of [cleanup] replaces the
    outcome of [body]. *)
Definition try_finally {A} (body : M A) (cleanup : M unit) : M A :=
  fun db =>
    match body db with
    | (r, db') =>
        match cleanup db' with
        | (Return _, db'') => (r, db'')
        | (Raise e, db'') => (Raise e, db'')
        end
    end.

Declare Scope store_scope.
Delimit Scope store_scope with store.
Notation "x <- m ;; k" := (bind m (fun x => k))
  (at level 100, m at next level, right associativity) : store_scope.
Notation "m ;;; k" := (bind m (fun _ => k))
  (at level 100, right associativity) : store_scope.
Local Open Scope store_scope.

Definition gets {A} (f : DB -> A) : M A := fun db => (Return (f db), db).
Definition modify (f : DB -> DB) : M unit := fun db => (Return tt, f db).

(** A reading of the clock ([datetime.utcnow()], [func.now()]). *)
Definition utcnow : M Z :=
  fun db =>
    (Return (clock db),
     mkDB (research_requests db) (workflow_logs db) (articles db)
          (next_request_id db) (next_log_id db) (next_article_id db)
          (clock db + 1) (status_history db)).

(** An exception that comes from outside the modelled code, if any. *)
Definition external (fault : option exn) : M unit :=
  match fault with
  | Some e => raise e
  | None => ret tt
  end.

(** ** [ExternalAPIService] ([app/services/external_apis.py]) *)

(** A candidate item as the providers build it: a dict with the keys
    [title], [url], [summary], [content], [source], [published_at] and
    [relevance_score]; the aggregator adds [keywords] (absent before, read
    with the default [[]]). *)
Module Candidate.
Record t := mk {
  title : string;
  url : string;
  summary : string;
  content : string;
  source : string;
  published_at : option Z;
  relevance_score : Z;
  keywords : list string
}.

Definition set_summary (a : t) (s : string) : t :=
  mk (title a) (url a) s (content a) (source a) (published_at a)
     (relevance_score a) (keywords a).

Definition set_keywords (a : t) (k : list string) : t :=
  mk (title a) (url a) (summary a) (content a) (source a) (published_at a)
     (relevance_score a) k.
End Candidate.

(** What awaiting one provider under
    [asyncio.gather(..., return_exceptions=True)] gives: an exception
    object, or the list the provider returned ([None] stands for a falsy
    item of that list). *)
Inductive provider_reply :=
| Failed (e : exn)
| Fetched (items : list (option Candidate.t)).

(** The world outside the modelled code.
    - [wikipedia topic] and [hackernews topic] are the replies to
      [search_articles(topic, limit=3)] and [search_stories(topic, limit=2)].
    - [fault step] is an exception raised inside the [try] block of that
      stage by the call it makes outside the log table: closing the API
      sessions on the event loop in [DATA_GATHERING], [create_article] in
      [RESULT_PERSISTENCE], [get_articles] in [RETURN_RESULTS].  The other
      two stages make no such call.  Writes to the log table and to the
      status header are taken to succeed. *)
Record Env := mkEnv {
  wikipedia : string -> provider_reply;
  hackernews : string -> provider_reply;
  fault : WorkflowStep.t -> option exn
}.

Module ExternalAPIService.

(** [x = [] if isinstance(x, Exception) else x], then [x or []] *)
Definition items_of (r : provider_reply) : list (option Candidate.t) :=
  match r with
  | Failed _ => []
  | Fetched items => items
  end.

(** The body of the loop over [all_articles] for one truthy item. *)
Definition process_article (article : Candidate.t) : Candidate.t :=
  let article :=
    if negb (PyStr.truthy (Candidate.summary article))
       && PyStr.truthy (Candidate.content article)
    then Candidate.set_summary article
           (ContentProcessor.generate_summary (Candidate.content article) 3)
    else article in
  let text_for_keywords :=
    Candidate.title article +:+ " " +:+ Candidate.content article in
  Candidate.set_keywords article
    (ContentProcessor.extract_keywords text_for_keywords 10).

(** [processed_articles] before the sort: the truthy items, enriched, in
    fetch order (Wikipedia first). *)
Definition processed_articles (env : Env) (topic : string) : list Candidate.t :=
  let wikipedia_articles := items_of (wikipedia env topic) in
  let hackernews_stories := items_of (hackernews env topic) in
  let all_articles := wikipedia_articles ++ hackernews_stories in
  omap (fun article => process_article <$> article) all_articles.

(** The [try] block.  On replies of these types none of its statements can
    raise, so the [except] branch, which returns [[]], is never taken. *)
Definition gather_research_data (env : Env) (topic : string) : list Candidate.t :=
  firstn 5 (sorted_reverse Candidate.relevance_score (processed_articles env topic)).

End ExternalAPIService.

(** ** [ResearchService] ([app/services/research.py]) *)

Module ResearchService.

Definition set_requests (f : gmap nat ResearchRequest.t -> gmap nat ResearchRequest.t)
    (db : DB) : DB :=
  mkDB (f (research_requests db)) (workflow_logs db) (articles db)
       (next_request_id db) (next_log_id db) (next_article_id db)
       (clock db) (status_history db).

Definition record_status (request_id : nat) (s : ResearchStatus.t) (db : DB) : DB :=
  mkDB (research_requests db) (workflow_logs db) (articles db)
       (next_request_id db) (next_log_id db) (next_article_id db)
       (clock db) (status_history db ++ [(request_id, s)]).

Definition create_research_request (topic : string) : M ResearchRequest.t :=
  now <- utcnow ;;
  fun db =>
    let id := next_request_id db in
    let research_request :=
      ResearchRequest.mk id topic ResearchStatus.PENDING None now None None None None in
    (Return research_request,
     mkDB (<[id := research_request]> (research_requests db))
          (workflow_logs db) (articles db)
          (S id) (next_log_id db) (next_article_id db)
          (clock db) (status_history db ++ [(id, ResearchStatus.PENDING)])).

Definition get_research_request (request_id : nat) : M (option ResearchRequest.t) :=
  gets (fun db => research_requests db !! request_id).

Definition update_task_id (request_id : nat) (task_id : string)
    : M (option ResearchRequest.t) :=
  research_request <- get_research_request request_id ;;
  match research_request with
  | Some r =>
      now <- utcnow ;;
      let r' :=
        ResearchRequest.mk (ResearchRequest.id r) (ResearchRequest.topic r)
          (ResearchRequest.status r) (Some task_id)
          (ResearchRequest.created_at r) (Some now)
          (ResearchRequest.completed_at r) (ResearchRequest.results r)
          (ResearchRequest.error_message r) in
      modify (set_requests (insert request_id r')) ;;;
      ret (Some r')
  | None => ret None
  end.

Definition update_status (request_id : nat) (status : ResearchStatus.t)
    (results : option json) (error_message : option string)
    : M (option ResearchRequest.t) :=
  research_request <- get_research_request request_id ;;
  match research_request with
  | None => ret None
  | Some r =>
      let results' :=
        if Json.truthy results then results else ResearchRequest.results r in
      let error_message' :=
        if truthy_str error_message then error_message
        else ResearchRequest.error_message r in
      completed_at' <-
        (if decide (status = ResearchStatus.COMPLETED)
         then now <- utcnow ;; ret (Some now)
         else ret (ResearchRequest.completed_at r)) ;;
      now <- utcnow ;;
      let r' :=
        ResearchRequest.mk (ResearchRequest.id r) (ResearchRequest.topic r)
          status (ResearchRequest.task_id r)
          (ResearchRequest.created_at r) (Some now)
          completed_at' results' error_message' in
      modify (set_requests (insert request_id r')) ;;;
      modify (record_status request_id status) ;;;
      ret (Some r')
  end.

Definition logs_of (request_id : nat) (db : DB) : list WorkflowLog.t :=
  List.filter (fun l => Nat.eqb (WorkflowLog.research_request_id l) request_id)
              (workflow_logs db).

Definition articles_of (request_id : nat) (db : DB) : list Article.t :=
  List.filter (fun a => Nat.eqb (Article.research_request_id a) request_id)
              (articles db).

(** The detail response: the request with its [logs] and [articles]
    relationships loaded. *)
Definition detail_of (request_id : nat) (db : DB)
    : option (ResearchRequest.t * list WorkflowLog.t * list Article.t) :=
  r ← research_requests db !! request_id;
  Some (r, logs_of request_id db, articles_of request_id db).

Definition get_research_request_detail (request_id : nat)
    : M (option (ResearchRequest.t * list WorkflowLog.t * list Article.t)) :=
  gets (detail_of request_id).

(** [db.delete(research_request)]: both relationships of the request are
    declared with [cascade="all, delete-orphan"], so its logs and its
    articles are deleted with it. *)
Definition delete_research_request (request_id : nat) : M bool :=
  research_request <- get_research_request request_id ;;
  match research_request with
  | None => ret false
  | Some _ =>
      modify (fun db =>
        mkDB (delete request_id (research_requests db))
             (List.filter
                (fun l => negb (Nat.eqb (WorkflowLog.research_request_id l) request_id))
                (workflow_logs db))
             (List.filter
                (fun a => negb (Nat.eqb (Article.research_request_id a) request_id))
                (articles db))
             (next_request_id db) (next_log_id db) (next_article_id db)
             (clock db) (status_history db)) ;;;
      ret true
  end.

Definition create_workflow_log (request_id : nat) (step : WorkflowStep.t)
    (status : string) (message : option string) (details : option json)
    : M WorkflowLog.t :=
  now <- utcnow ;;
  fun db =>
    let log :=
      WorkflowLog.mk (next_log_id db) request_id step status message details
                     (Some now) None None in
    (Return log,
     mkDB (research_requests db) (workflow_logs db ++ [log]) (articles db)
          (next_request_id db) (S (next_log_id db)) (next_article_id db)
          (clock db) (status_history db)).

Definition find_log (log_id : nat) (db : DB) : option WorkflowLog.t :=
  List.find (fun l => Nat.eqb (WorkflowLog.id l) log_id) (workflow_logs db).

Fixpoint replace_log (log : WorkflowLog.t) (rows : list WorkflowLog.t)
    : list WorkflowLog.t :=
  match rows with
  | [] => []
  | l :: rows' =>
      if Nat.eqb (WorkflowLog.id l) (WorkflowLog.id log) then log :: rows'
      else l :: replace_log log rows'
  end.

Definition update_workflow_log (log_id : nat) (status : string)
    (message : option string) (details : option json)
    : M (option WorkflowLog.t) :=
  log <- gets (find_log log_id) ;;
  match log with
  | None => ret None
  | Some l =>
      let message' := if truthy_str message then message else WorkflowLog.message l in
      let details' := if Json.truthy details then details else WorkflowLog.details l in
      timing <-
        (if String.eqb status "completed" then
           now <- utcnow ;;
           ret (Some now,
                match WorkflowLog.started_at l with
                | Some started => Some (now - started)
                | None => WorkflowLog.duration_ms l
                end)
         else ret (WorkflowLog.completed_at l, WorkflowLog.duration_ms l)) ;;
      let l' :=
        WorkflowLog.mk (WorkflowLog.id l) (WorkflowLog.research_request_id l)
          (WorkflowLog.step l) status message' details'
          (WorkflowLog.started_at l) (fst timing) (snd timing) in
      modify (fun db =>
        mkDB (research_requests db) (replace_log l' (workflow_logs db)) (articles db)
             (next_request_id db) (next_log_id db) (next_article_id db)
             (clock db) (status_history db)) ;;;
      ret (Some l')
  end.

(** [order_by(WorkflowLog.started_at)]: rows are inserted with increasing
    [started_at], so insertion order is that order. *)
Definition get_workflow_logs (request_id : nat) : M (list WorkflowLog.t) :=
  gets (logs_of request_id).

Definition create_article (request_id : nat) (title url source content summary : string)
    (keywords : list string) (published_at : option Z) (relevance_score : Z)
    : M Article.t :=
  now <- utcnow ;;
  fun db =>
    let article :=
      Article.mk (next_article_id db) request_id title url source content summary
                 keywords published_at now relevance_score in
    (Return article,
     mkDB (research_requests db) (workflow_logs db) (articles db ++ [article])
          (next_request_id db) (next_log_id db) (S (next_article_id db))
          (clock db) (status_history db)).

(** [order_by(relevance_score.desc(), extracted_at)], then the limit. *)
Definition ranked_articles (request_id : nat) (limit : option nat) (db : DB)
    : list Article.t :=
  let rows :=
    sorted_reverse Article.relevance_score
      (sorted_reverse (fun a => - Article.extracted_at a)
         (articles_of request_id db)) in
  match limit with
  | Some (S n) => firstn (S n) rows
  | _ => rows
  end.

Definition get_articles (request_id : nat) (limit : option nat) : M (list Article.t) :=
  gets (ranked_articles request_id limit).

End ResearchService.

(** ** The workflow ([app/tasks/research_workflow.py]) *)

(** [list(set(xs))]: the distinct elements.  Python leaves the order of a
    set unspecified; the model keeps first occurrences in order. *)
Definition distinct (xs : list string) : list string := remove_dups xs.

(** The result dict of stage 1. *)
Module Parsed.
Record t := mk {
  original_topic : string;
  cleaned_topic : string;
  topic_length : nat;
  validation_passed : bool
}.

Definition to_json (r : t) : json :=
  JDict [("original_topic", JStr (original_topic r));
         ("cleaned_topic", JStr (cleaned_topic r));
         ("topic_length", Json.nat (topic_length r));
         ("validation_passed", JBool (validation_passed r))].
End Parsed.

(** The result dict of stage 3. *)
Module Processed.
Record t := mk {
  top_articles : list Candidate.t;
  keywords : list string;
  summary : string;
  sources : list string;
  total_articles_processed : nat;
  top_articles_count : nat
}.
End Processed.

(** The result dict of stage 4. *)
Module Persisted.
Record t := mk {
  articles_saved : nat;
  keywords : list string;
  summary : string;
  sources : list string;
  total_articles_found : nat
}.

Definition to_json (r : t) : json :=
  JDict [("articles_saved", Json.nat (articles_saved r));
         ("keywords", Json.strs (keywords r));
         ("summary", JStr (summary r));
         ("sources", Json.strs (sources r));
         ("total_articles_found", Json.nat (total_articles_found r))].
End Persisted.

Module Workflow.

Import ResearchService.

Definition log_failed (log : WorkflowLog.t) (what : string) {A} (e : exn) : M A :=
  update_workflow_log (WorkflowLog.id log) "failed" (Some (what +:+ str e)) None ;;;
  raise e.

Definition execute_input_parsing (request_id : nat) (topic : string) : M Parsed.t :=
  log <- create_workflow_log request_id WorkflowStep.INPUT_PARSING "started"
           (Some "Validating and parsing input topic") None ;;
  try_except
    ((if negb (PyStr.truthy topic) || (String.length (PyStr.strip topic) <? 3)%nat
      then raise (ValueError "Topic must be at least 3 characters long")
      else ret tt) ;;;
     (if (500 <? String.length topic)%nat
      then raise (ValueError "Topic must be less than 500 characters")
      else ret tt) ;;;
     let cleaned_topic := PyStr.strip topic in
     let result := Parsed.mk topic cleaned_topic (String.length cleaned_topic) true in
     update_workflow_log (WorkflowLog.id log) "completed"
       (Some "Input validation completed successfully")
       (Some (Parsed.to_json result)) ;;;
     ret result)
    (log_failed log "Input validation failed: ").

Definition execute_data_gathering (env : Env) (request_id : nat) (topic : string)
    : M (list Candidate.t) :=
  log <- create_workflow_log request_id WorkflowStep.DATA_GATHERING "started"
           (Some "Fetching articles from external APIs") None ;;
  try_except
    (articles <-
       try_finally
         (ret (ExternalAPIService.gather_research_data env topic))
         (external (fault env WorkflowStep.DATA_GATHERING)) ;;
     update_workflow_log (WorkflowLog.id log) "completed"
       (Some ("Successfully gathered " +:+ pretty (length articles) +:+ " articles"))
       (Some (JDict [("articles_count", Json.nat (length articles));
                     ("sources", Json.strs (distinct (map Candidate.source articles)))])) ;;;
     ret articles)
    (log_failed log "Data gathering failed: ").

(** The keyword part of stage 3: merge, count, rank, cap. *)
Definition top_keywords (top_articles : list Candidate.t) : list string :=
  let all_keywords :=
    fold_left (fun all_keywords article => all_keywords ++ Candidate.keywords article)
              top_articles [] in
  let keyword_freq := fold_left Counter.incr all_keywords [] in
  map fst (firstn 10 (sorted_reverse snd keyword_freq)).

(** The summary part of stage 3. *)
Definition overall_summary (top_articles : list Candidate.t) : string :=
  let all_summaries :=
    map Candidate.summary
        (List.filter (fun article => PyStr.truthy (Candidate.summary article))
                     top_articles) in
  PyStr.take 1000 (PyStr.join " " all_summaries).

Definition execute_processing (request_id : nat) (articles : list Candidate.t)
    : M Processed.t :=
  log <- create_workflow_log request_id WorkflowStep.PROCESSING "started"
           (Some "Processing articles and extracting insights") None ;;
  try_except
    (let top_articles := firstn 5 articles in
     let top_keywords := top_keywords top_articles in
     let overall_summary := overall_summary top_articles in
     let sources := distinct (map Candidate.source top_articles) in
     let result :=
       Processed.mk top_articles top_keywords overall_summary sources
                    (length articles) (length top_articles) in
     update_workflow_log (WorkflowLog.id log) "completed"
       (Some ("Processing completed: " +:+ pretty (length top_articles)
              +:+ " articles processed"))
       (Some (JDict [("keywords_extracted", Json.nat (length top_keywords));
                     ("summary_length", Json.nat (String.length overall_summary));
                     ("sources", Json.strs sources)])) ;;;
     ret result)
    (log_failed log "Processing failed: ").

(** The loop of stage 4 over [top_articles]. *)
Fixpoint save_articles (env : Env) (request_id : nat) (todo : list Candidate.t)
    (saved_articles : list Article.t) : M (list Article.t) :=
  match todo with
  | [] => ret saved_articles
  | article_data :: todo' =>
      external (fault env WorkflowStep.RESULT_PERSISTENCE) ;;;
      article <- create_article request_id
                   (Candidate.title article_data) (Candidate.url article_data)
                   (Candidate.source article_data) (Candidate.content article_data)
                   (Candidate.summary article_data) (Candidate.keywords article_data)
                   (Candidate.published_at article_data)
                   (Candidate.relevance_score article_data) ;;
      save_articles env request_id todo' (saved_articles ++ [article])
  end.

Definition execute_result_persistence (env : Env) (request_id : nat)
    (processed_data : Processed.t) : M Persisted.t :=
  log <- create_workflow_log request_id WorkflowStep.RESULT_PERSISTENCE "started"
           (Some "Saving processed results to database") None ;;
  try_except
    (saved_articles <-
       save_articles env request_id (Processed.top_articles processed_data) [] ;;
     let result :=
       Persisted.mk (length saved_articles)
                    (Processed.keywords processed_data)
                    (Processed.summary processed_data)
                    (Processed.sources processed_data)
                    (Processed.total_articles_processed processed_data) in
     update_workflow_log (WorkflowLog.id log) "completed"
       (Some ("Results persisted: " +:+ pretty (length saved_articles)
              +:+ " articles saved"))
       (Some (Persisted.to_json result)) ;;;
     ret result)
    (log_failed log "Result persistence failed: ").

Definition article_json (article : Article.t) : json :=
  JDict [("id", Json.nat (Article.id article));
         ("title", JStr (Article.title article));
         ("url", JStr (Article.url article));
         ("source", JStr (Article.source article));
         ("summary", JStr (Article.summary article));
         ("keywords", Json.strs (Article.keywords article));
         ("relevance_score", JInt (Article.relevance_score article))].

(** Stage 5.  [completed_at] holds the reading of the clock itself, not
    its ISO rendering. *)
Definition execute_return_results (env : Env) (request_id : nat)
    (persisted_data : Persisted.t) (workflow_start : Z) : M json :=
  log <- create_workflow_log request_id WorkflowStep.RETURN_RESULTS "started"
           (Some "Preparing final structured results") None ;;
  try_except
    (research_request <- get_research_request_detail request_id ;;
     now <- utcnow ;;
     let processing_time_ms := now - workflow_start in
     external (fault env WorkflowStep.RETURN_RESULTS) ;;;
     articles <- get_articles request_id (Some 5%nat) ;;
     topic <-
       match research_request with
       | Some (r, _, _) => ret (ResearchRequest.topic r)
       | None => raise (AttributeError "'NoneType' object has no attribute 'topic'")
       end ;;
     completed_at <- utcnow ;;
     let final_results :=
       JDict [("topic", JStr topic);
              ("summary", JStr (Persisted.summary persisted_data));
              ("top_articles", JList (map article_json articles));
              ("keywords", Json.strs (Persisted.keywords persisted_data));
              ("sources", Json.strs (Persisted.sources persisted_data));
              ("total_articles_found",
               Json.nat (Persisted.total_articles_found persisted_data));
              ("processing_time_ms", JInt processing_time_ms);
              ("completed_at", JInt completed_at)] in
     update_workflow_log (WorkflowLog.id log) "completed"
       (Some "Research workflow completed successfully")
       (Some (JDict [("processing_time_ms", JInt processing_time_ms);
                     ("articles_returned", Json.nat (length articles));
                     ("keywords_count",
                      Json.nat (length (Persisted.keywords persisted_data)))])) ;;;
     ret final_results)
    (log_failed log "Return results failed: ").

(** The five stages in order, each fed the result of the one before. *)
Definition run_stages (env : Env) (request_id : nat) (topic : string)
    (workflow_start : Z) : M json :=
  step1_result <- execute_input_parsing request_id topic ;;
  step2_result <- execute_data_gathering env request_id topic ;;
  step3_result <- execute_processing request_id step2_result ;;
  step4_result <- execute_result_persistence env request_id step3_result ;;
  execute_return_results env request_id step4_result workflow_start.

(** The [try] block of [start_research_workflow]. *)
Definition workflow_body (env : Env) (request_id : nat) : M json :=
  research_request <- get_research_request request_id ;;
  match research_request with
  | None =>
      raise (Exception ("Research request " +:+ pretty request_id +:+ " not found"))
  | Some research_request =>
      update_status request_id ResearchStatus.PROCESSING None None ;;;
      workflow_start <- utcnow ;;
      final_results <-
        run_stages env request_id (ResearchRequest.topic research_request)
                   workflow_start ;;
      update_status request_id ResearchStatus.COMPLETED (Some final_results) None ;;;
      ret final_results
  end.

(** The [except] block of [start_research_workflow]. *)
Definition workflow_failed (request_id : nat) (e : exn) : M json :=
  create_workflow_log request_id WorkflowStep.RETURN_RESULTS "failed"
    (Some ("Workflow failed: " +:+ str e)) None ;;;
  update_status request_id ResearchStatus.FAILED None (Some (str e)) ;;;
  raise e.

Definition start_research_workflow (env : Env) (request_id : nat) : M json :=
  try_except (workflow_body env request_id) (workflow_failed request_id).

End Workflow.

(** ** The pull API ([app/api/routes/research.py]) *)

Module Routes.

Inductive response (A : Type) :=
| OK (body : A)
| HTTPException (status_code : nat) (detail : string).
Arguments OK {A} body.
Arguments HTTPException {A} status_code detail.

(** [try: body  except HTTPException: raise  except Exception as e:
    raise HTTPException(500, ...)] *)
Definition route {A} (prefix : string) (body : M (response A)) : DB -> response A * DB :=
  fun db =>
    match body db with
    | (Return r, db') => (r, db')
    | (Raise e, db') => (HTTPException 500 (prefix +:+ str e), db')
    end.

(** [POST /research]; [task_id] is the handle that scheduling the workflow
    returned. *)
Definition create_research_request (topic : string) (task_id : string)
    : DB -> response (option ResearchRequest.t) * DB :=
  route "Failed to create research request: "
    (research_request <- ResearchService.create_research_request topic ;;
     research_request <-
       ResearchService.update_task_id (ResearchRequest.id research_request) task_id ;;
     ret (OK research_request)).

(** [GET /research/{request_id}] *)
Definition get_research_request (request_id : nat)
    : DB -> response (ResearchRequest.t * list WorkflowLog.t * list Article.t) * DB :=
  route "Failed to get research request: "
    (research_request <- ResearchService.get_research_request_detail request_id ;;
     match research_request with
     | None => ret (HTTPException 404 "Research request not found")
     | Some detail => ret (OK detail)
     end).

(** [DELETE /research/{request_id}] *)
Definition delete_research_request (request_id : nat) : DB -> response string * DB :=
  route "Failed to delete research request: "
    (research_request <- ResearchService.get_research_request request_id ;;
     match research_request with
     | None => ret (HTTPException 404 "Research request not found")
     | Some _ =>
         ResearchService.delete_research_request request_id ;;;
         ret (OK "Research request deleted successfully")
     end).

End Routes.

(** ** The system as a sequence of operations

    A submission through the API, a worker executing the workflow task of a
    request in some environment, and a deletion through the API. *)
Inductive op :=
| Submit (topic : string) (task_id : string)
| Work (env : Env) (request_id : nat)
| Delete (request_id : nat).

Definition run_op (o : op) (db : DB) : DB :=
  match o with
  | Submit topic task_id => snd (Routes.create_research_request topic task_id db)
  | Work env request_id => snd (Workflow.start_research_workflow env request_id db)
  | Delete request_id => snd (Routes.delete_research_request request_id db)
  end.

Definition run_ops (ops : list op) (db : DB) : DB :=
  fold_left (fun db o => run_op o db) ops db.

(** ** Vocabulary of the properties *)

(** Primary keys are drawn from counters, so the ids of the rows in the log
    table are below the next id to be given out. *)
Definition fresh_log_ids (db : DB) : Prop :=
  Forall (fun l => (WorkflowLog.id l < next_log_id db)%nat) (workflow_logs db).

(** Every character of [s] satisfies [p]. *)
Fixpoint all_chars (p : ascii -> bool) (s : string) : bool :=
  match s with
  | EmptyString => true
  | String c s' => p c && all_chars p s'
  end.

(** A sentence as the summary extractor keeps it: not empty, free of the
    terminators [.!?], and without whitespace at either end. *)
Definition clean_sentence (s : string) : Prop :=
  s <> "" /\
  all_chars (fun c => negb (PyStr.is_terminator c)) s = true /\
  PyStr.strip s = s.

(** What the summary extractor returns for a list of sentences. *)
Definition render (sentences : list string) : string :=
  PyStr.join ". " sentences +:+ ".".

(** [x] stands at an earlier position of [l] than [y]. *)
Definition before {A} (l : list A) (x y : A) : Prop :=
  exists i j, (i < j)%nat /\ l !! i = Some x /\ l !! j = Some y.

(** The position of the first occurrence of [w] in [ws]. *)
Fixpoint index_of (w : string) (ws : list string) : nat :=
  match ws with
  | [] => 0
  | x :: ws' => if String.eqb x w then 0 else S (index_of w ws')
  end.

(** The number of occurrences of [w] in [ws]. *)
Definition occurrences (ws : list string) (w : string) : nat :=
  length (List.filter (String.eqb w) ws).

(** [a] ranks above [b] among the words [ws]: it occurs more often, or as
    often and its first occurrence comes first. *)
Definition outranks (ws : list string) (a b : string) : Prop :=
  (occurrences ws b < occurrences ws a)%nat \/
  (occurrences ws a = occurrences ws b /\ (index_of a ws < index_of b ws)%nat).

(** [out] is the list of the [n] highest-ranked distinct words of [ws]
    that satisfy [p], highest first. *)
Definition top_ranked (p : string -> bool) (ws : list string) (n : nat)
    (out : list string) : Prop :=
  (length out <= n)%nat /\
  NoDup out /\
  (forall k, k ∈ out -> p k = true /\ k ∈ ws) /\
  (forall i j ki kj, (i < j)%nat -> out !! i = Some ki -> out !! j = Some kj ->
                     outranks ws ki kj) /\
  (forall w, w ∈ ws -> p w = true -> w ∉ out ->
             length out = n /\ forall k, k ∈ out -> outranks ws k w).

(** [a] is to come before [b] when [l] is sorted by descending key and
    stably. *)
Definition sorted_stably {A} (key : A -> Z) (l : list A) (a b : A) : Prop :=
  key b < key a \/ (key a = key b /\ before l a b).

(** The counter dict that holds, for the keys [ks] in this order, their
    numbers of occurrences in [ws]. *)
Definition tally (ws ks : list string) : Counter.t :=
  map (fun k => (k, Z.of_nat (occurrences ws k))) ks.

(** The keys [ks] are the distinct words of [ws] that satisfy [p], in the
    order of their first occurrences. *)
Definition first_seen_keys (p : string -> bool) (ws ks : list string) : Prop :=
  NoDup ks /\
  (forall k, k ∈ ks <-> k ∈ ws /\ p k = true) /\
  StronglySorted (fun a b => (index_of a ws < index_of b ws)%nat) ks.

(** The request table, the status history and the request counter are as
    they were. *)
Definition same_header (db db' : DB) : Prop :=
  research_requests db' = research_requests db /\
  status_history db' = status_history db /\
  next_request_id db' = next_request_id db.

(** The step and the status of each log entry, in order. *)
Definition trail (entries : list WorkflowLog.t) : list (WorkflowStep.t * string) :=
  map (fun l => (WorkflowLog.step l, WorkflowLog.status l)) entries.

(** From [db] to [db'] the log table of request [request_id] grew by
    entries with this trail, and nothing else happened to the log table or
    to the request table. *)
Definition ran (request_id : nat) (steps : list (WorkflowStep.t * string))
    (db db' : DB) : Prop :=
  same_header db db' /\
  fresh_log_ids db' /\
  exists entries,
    workflow_logs db' = workflow_logs db ++ entries /\
    trail entries = steps /\
    Forall (fun l => WorkflowLog.research_request_id l = request_id) entries.

(** The five stages in their fixed order. *)
Definition stage_order : list WorkflowStep.t :=
  [WorkflowStep.INPUT_PARSING; WorkflowStep.DATA_GATHERING; WorkflowStep.PROCESSING;
   WorkflowStep.RESULT_PERSISTENCE; WorkflowStep.RETURN_RESULTS].

(** The exception that stage 1 raises for a topic, if any. *)
Definition validation_error (topic : string) : option exn :=
  if negb (PyStr.truthy topic) || (String.length (PyStr.strip topic) <? 3)%nat
  then Some (ValueError "Topic must be at least 3 characters long")
  else if (500 <? String.length topic)%nat
  then Some (ValueError "Topic must be less than 500 characters")
  else None.

(** Nothing happened to the log table or to the request table. *)
Definition log_frame (db db' : DB) : Prop :=
  same_header db db' /\
  workflow_logs db' = workflow_logs db /\
  next_log_id db' = next_log_id db.

(** The exception that the loop of stage 4 raises, if any: the fault of
    [create_article], met when there is an article to save. *)
Definition persistence_error (env : Env) (top_articles : list Candidate.t) : option exn :=
  match top_articles with
  | [] => None
  | _ :: _ => fault env WorkflowStep.RESULT_PERSISTENCE
  end.

(** The exception that the body of stage 5 raises, if any: the fault of
    [get_articles], or the attribute error on a request that is gone. *)
Definition results_error (env : Env) (found : option ResearchRequest.t) : option exn :=
  match fault env WorkflowStep.RETURN_RESULTS with
  | Some e => Some e
  | None =>
      match found with
      | Some _ => None
      | None => Some (AttributeError "'NoneType' object has no attribute 'topic'")
      end
  end.

(** The first stage that fails, as its position in [stage_order], and the
    exception it raises; [None] when all five stages succeed. *)
Definition first_failure (env : Env) (topic : string) (found : option ResearchRequest.t)
    : option (nat * exn) :=
  match validation_error topic with
  | Some e => Some (0%nat, e)
  | None =>
      match fault env WorkflowStep.DATA_GATHERING with
      | Some e => Some (1%nat, e)
      | None =>
          match persistence_error env
                  (take 5 (ExternalAPIService.gather_research_data env topic)) with
          | Some e => Some (3%nat, e)
          | None =>
              match results_error env found with
              | Some e => Some (4%nat, e)
              | None => None
              end
          end
      end
  end.

(** The trail of a run in which the stage at position [k] fails: the stages
    before it completed, it failed, no later stage has an entry. *)
Definition failed_trail (k : nat) : list (WorkflowStep.t * string) :=
  map (fun step => (step, "completed")) (take k stage_order)
  ++ map (fun step => (step, "failed")) (take 1 (drop k stage_order)).

(** The trail of a run in which every stage completed. *)
Definition completed_trail : list (WorkflowStep.t * string) :=
  map (fun step => (step, "completed")) stage_order.







(** ** Sample data *)



(** The store after one submission. *)
Definition sample_db : DB :=
  snd (Routes.create_research_request "Quantum Computing" "task-1" empty_db).


(** Wikipedia has one article; Hacker News has one link story, which, having
    no text, has neither summary nor content. *)
Definition link_story_env : Env :=
  mkEnv (fun _ =>
           Fetched [Some (Candidate.mk "Quantum computing"
                            "https://en.wikipedia.org/wiki/Quantum_computing"
                            "A quantum computer computes."
                            "A quantum computer exploits superposition. It computes."
                            "wikipedia" None 80 [])])
        (fun _ =>
           Fetched [Some (Candidate.mk "Quantum supremacy, again"
                            "https://example.org/quantum" "" ""
                            "hackernews" (Some 1700000000) 100 [])])
        (fun _ => None).

(** As [barren_env], and closing the API sessions raises an exception whose
    message is empty (what [str] gives for, say, [TimeoutError()]). *)
Definition silent_fault_env : Env :=
  mkEnv (fun _ => Failed (Exception "connection refused"))
        (fun _ => Fetched [])
        (fun step =>
           match step with
           | WorkflowStep.DATA_GATHERING => Some (Exception "")
           | _ => None
           end).

(** ** Relations between stores *)

(** Every run of [m] takes a store to one that is [R]-related to it,
    whatever [m] returns or raises. *)
Definition keeps {A} (R : DB -> DB -> Prop) (m : M A) : Prop :=
  forall db, R db (snd (m db)).

(** The columns of a request that the workflow has no statement to write. *)
Definition same_identity (r r' : ResearchRequest.t) : Prop :=
  ResearchRequest.id r' = ResearchRequest.id r /\
  ResearchRequest.topic r' = ResearchRequest.topic r /\
  ResearchRequest.task_id r' = ResearchRequest.task_id r /\
  ResearchRequest.created_at r' = ResearchRequest.created_at r.

(** What a piece of code working for request [request_id] may do to the
    request table and to the article table: update the row of that request
    in the columns other than those of [same_identity], and append articles
    of that request. *)
Definition workflow_frame (request_id : nat) (db db' : DB) : Prop :=
  (forall other, other <> request_id ->
     research_requests db' !! other = research_requests db !! other) /\
  option_Forall2 same_identity
    (research_requests db !! request_id) (research_requests db' !! request_id) /\
  (exists rows,
     articles db' = articles db ++ rows /\
     Forall (fun a => Article.research_request_id a = request_id) rows) /\
  next_request_id db' = next_request_id db.


(** Nothing happened to the article table. *)
Definition article_frame (db db' : DB) : Prop :=
  articles db' = articles db /\ next_article_id db' = next_article_id db.




(** The result columns of a request agree with its status: a completed
    request has results and a completion time; a pending one has no
    results, no completion time and no error message. *)
Definition consistent (r : ResearchRequest.t) : Prop :=
  (ResearchRequest.status r = ResearchStatus.COMPLETED ->
   is_Some (ResearchRequest.results r) /\ is_Some (ResearchRequest.completed_at r)) /\
  (ResearchRequest.status r = ResearchStatus.PENDING ->
   ResearchRequest.results r = None /\
   ResearchRequest.completed_at r = None /\
   ResearchRequest.error_message r = None).

(** The invariant of the request table between operations. *)
Definition well_formed (db : DB) : Prop :=
  fresh_log_ids db /\
  forall i r, research_requests db !! i = Some r ->
    (i < next_request_id db)%nat /\
    ResearchRequest.id r = i /\
    ResearchRequest.status r <> ResearchStatus.PROCESSING /\
    consistent r.

(** From [db] to [db'] no request id was taken back, and a request that
    had been given its id in [db] and is in [db'] was in [db], with the
    same identity. *)
Definition identity_kept (db db' : DB) : Prop :=
  (next_request_id db <= next_request_id db')%nat /\
  forall i r', (i < next_request_id db)%nat ->
    research_requests db' !! i = Some r' ->
    exists r, research_requests db !! i = Some r /\ same_identity r r'.

(** The order of the article listing: a higher score first, and of two
    articles with one score the one extracted earlier (or at the same
    time). *)
Definition ranks_before (a b : Article.t) : Prop :=
  Article.relevance_score b < Article.relevance_score a \/
  (Article.relevance_score a = Article.relevance_score b /\
   Article.extracted_at a <= Article.extracted_at b).


(** ** Listing requests ([get_research_requests], [get_research_requests_count]
    and [GET /research]) *)

Module Listing.
Section Listing.

(** How the database compares the [status] column, an [Enum] column, with
    the string of the query. *)
Context (status_is : string -> ResearchStatus.t -> bool).

(** The rows of the request table.  Rows with equal sort keys come in an
    order of the database's choosing; the model fixes one. *)
Definition table (db : DB) : list ResearchRequest.t :=
  (map_to_list (research_requests db)).*2.

(** [query = self.db.query(ResearchRequest)], filtered under [if status:] *)
Definition query (status : option string) (db : DB) : list ResearchRequest.t :=
  match status with
  | Some s =>
      if PyStr.truthy s
      then List.filter (fun r => status_is s (ResearchRequest.status r)) (table db)
      else table db
  | None => table db
  end.

(** [order_by(ResearchRequest.created_at.desc())] *)
Definition newest_first (status : option string) (db : DB) : list ResearchRequest.t :=
  sorted_reverse ResearchRequest.created_at (query status db).

Definition get_research_requests (offset limit : nat) (status : option string)
    : M (list ResearchRequest.t) :=
  gets (fun db => take limit (drop offset (newest_first status db))).

Definition get_research_requests_count (status : option string) : M nat :=
  gets (fun db => length (query status db)).

(** [math.ceil(total / size)] for [size >= 1]; the quotient of the source
    is a float, which is exact for the sizes a table can have. *)
Definition ceil_div (total size : nat) : nat := ((total + size - 1) / size)%nat.

(** [ResearchRequestListResponse] *)
Record page_response := mk_page {
  items : list ResearchRequest.t;
  total : nat;
  page : nat;
  size : nat;
  pages : nat
}.

(** The handler of [GET /research].  The framework rejects a [page] below 1
    and a [size] outside 1..100 before the handler runs ([Query(1, ge=1)],
    [Query(10, ge=1, le=100)]); the handler is modelled for arguments that
    pass. *)
Definition list_research_requests (page size : nat) (status : option string)
    : DB -> Routes.response page_response * DB :=
  Routes.route "Failed to list research requests: "
    (total <- get_research_requests_count status ;;
     let offset := ((page - 1) * size)%nat in
     let pages := ceil_div total size in
     requests <- get_research_requests offset size status ;;
     ret (Routes.OK (mk_page requests total page size pages))).

(** The items of the answer to a page request. *)
Definition items_of_page (size : nat) (status : option string) (db : DB) (page : nat)
    : list ResearchRequest.t :=
  match fst (list_research_requests page size status db) with
  | Routes.OK response => items response
  | Routes.HTTPException _ _ => []
  end.

End Listing.
End Listing.

(** A comparison of the [status] column with a string: by the value of the
    enum member. *)
Definition by_value (s : string) (status : ResearchStatus.t) : bool :=
  String.eqb s
    match status with
    | ResearchStatus.PENDING => "pending"
    | ResearchStatus.PROCESSING => "processing"
    | ResearchStatus.COMPLETED => "completed"
    | ResearchStatus.FAILED => "failed"
    end.

(** ** The providers ([HackerNewsService], [WikipediaService]) *)

(** [range(start, stop, step)] for [step >= 1]: the numbers
    [start + k * step] below [stop], of which there are
    [ceil((stop - start) / step)]. *)
Definition range (start stop step : nat) : list nat :=
  map (fun k => start + k * step)%nat (seq 0 ((stop - start + step - 1) / step)%nat).

(** [sub in s] on strings *)
Fixpoint contains (sub s : string) : bool :=
  String.prefix sub s ||
  match s with
  | EmptyString => false
  | String _ s' => contains sub s'
  end.

Module HackerNewsService.

(** The JSON object of one item of the Hacker News API, as far as the code
    reads it.  A key that is absent is [None]; [deleted] is the truthiness
    of the value under that key. *)
Record item := mk_item {
  type : option string;
  deleted : bool;
  title : option string;
  url : option string;
  text : option string;
  time : option Z;
  score : option Z
}.

(** The API.  [topstories] is the list of [topstories.json] and [get_item]
    the object of [item/{id}.json]; each is [None] when the request fails
    or its body is not of that shape. *)
Record api := mk_api {
  topstories : option (list nat);
  get_item : nat -> option item
}.

(** The [except] branch answers [None] for a request that failed.  A
    publication time is kept as its timestamp. *)
Definition _get_story_details (w : api) (story_id : nat) : option Candidate.t :=
  match get_item w story_id with
  | None => None
  | Some story_data =>
      if negb (bool_decide (type story_data = Some "story")) || deleted story_data
      then None
      else
        Some (Candidate.mk
                (default "" (title story_data))
                (default ("https://news.ycombinator.com/item?id=" +:+ pretty story_id)
                         (url story_data))
                (if truthy_str (text story_data)
                 then PyStr.take 500 (default "" (text story_data)) else "")
                (default "" (text story_data))
                "hackernews"
                (match time story_data with
                 | Some t => if t =? 0 then None else Some t
                 | None => None
                 end)
                (Z.min (default 0 (score story_data)) 100)
                [])
  end.

Definition _get_stories_batch (w : api) (story_ids : list nat)
    : list (option Candidate.t) :=
  map (_get_story_details w) story_ids.

Definition _is_relevant (story : option Candidate.t) (search_terms : list string) : bool :=
  match story with
  | None => false
  | Some story =>
      let title := PyStr.lower (Candidate.title story) in
      let text := PyStr.lower (Candidate.content story) in
      existsb (fun term => contains term title || contains term text) search_terms
  end.

(** The inner loop of [search_stories] over one batch; it stops when
    [relevant_stories] has [limit] stories. *)
Fixpoint scan_batch (search_terms : list string) (limit : nat)
    (batch_stories : list (option Candidate.t)) (relevant_stories : list Candidate.t)
    : list Candidate.t :=
  match batch_stories with
  | [] => relevant_stories
  | story :: rest =>
      match story with
      | Some s =>
          if _is_relevant (Some s) search_terms then
            let relevant_stories := relevant_stories ++ [s] in
            if (limit <=? length relevant_stories)%nat then relevant_stories
            else scan_batch search_terms limit rest relevant_stories
          else scan_batch search_terms limit rest relevant_stories
      | None => scan_batch search_terms limit rest relevant_stories
      end
  end.

(** The outer loop, over the offsets of the batches.  [requested] is the
    trace of the item ids requested from the API so far. *)
Fixpoint scan_batches (w : api) (search_terms : list string) (limit : nat)
    (story_ids : list nat) (offsets : list nat)
    (relevant_stories : list Candidate.t) (requested : list nat)
    : list Candidate.t * list nat :=
  match offsets with
  | [] => (relevant_stories, requested)
  | i :: offsets' =>
      let batch_ids := take 10 (drop i story_ids) in
      let batch_stories := _get_stories_batch w batch_ids in
      let relevant_stories := scan_batch search_terms limit batch_stories relevant_stories in
      if (limit <=? length relevant_stories)%nat
      then (relevant_stories, requested ++ batch_ids)
      else scan_batches w search_terms limit story_ids offsets'
                        relevant_stories (requested ++ batch_ids)
  end.

(** [search_stories]: the stories it returns, and the item ids it has
    requested from the API, in order. *)
Definition search_stories (w : api) (topic : string) (limit : nat)
    : list Candidate.t * list nat :=
  match topstories w with
  | None => ([], [])
  | Some ids =>
      let story_ids := take 100 ids in
      let search_terms := PyStr.split (PyStr.lower topic) in
      let '(relevant_stories, requested) :=
        scan_batches w search_terms limit story_ids
                     (range 0 (Nat.min (length story_ids) 50) 10) [] [] in
      (take limit relevant_stories, requested)
  end.

End HackerNewsService.

Module WikipediaService.

(** The summary object of a page, as far as the code reads it; [page] is
    the value under [content_urls.desktop.page]. *)
Record summary_data := mk_summary {
  title : option string;
  page : option string;
  extract : option string
}.

(** The API.  [search] is the [pages] list of the search reply, each page
    with its [key] if it has one; [summary] is the summary object of a page
    and [paragraphs] the texts of the [<p>] elements of its HTML, in order;
    each is [None] when the request fails. *)
Record api := mk_api {
  search : string -> nat -> option (list (option string));
  summary : string -> option summary_data;
  paragraphs : string -> option (list string)
}.

Definition _get_article_details (w : api) (page_key : string) : option Candidate.t :=
  match summary w page_key, paragraphs w page_key with
  | Some summary_data, Some paragraphs =>
      let content_text :=
        PyStr.join " "
          (List.filter PyStr.truthy (map PyStr.strip (take 3 paragraphs))) in
      Some (Candidate.mk
              (default "" (title summary_data))
              (default "" (page summary_data))
              (default "" (extract summary_data))
              (PyStr.take 2000 content_text)
              "wikipedia" None 80 [])
  | _, _ => None
  end.

(** The loop skips a page without [key] and a page whose details could not
    be had; the outer [except] answers [[]] for a search that failed. *)
Definition search_articles (w : api) (topic : string) (limit : nat) : list Candidate.t :=
  match search w topic limit with
  | None => []
  | Some pages =>
      omap (fun page => match page with
                        | Some page_key => _get_article_details w page_key
                        | None => None
                        end)
           (take 5 pages)
  end.

End WikipediaService.




(** A Hacker News API with sixty top stories, numbered from 1: those with
    an even number are about quantum computing, the others about Rust;
    story 4 is deleted. *)
Definition sample_hn : HackerNewsService.api :=
  HackerNewsService.mk_api
    (Some (seq 1 60))
    (fun story_id =>
       Some (HackerNewsService.mk_item
               (Some "story") (Nat.eqb story_id 4)
               (Some (if Nat.even story_id then "Quantum supremacy" else "Rust 2.0"))
               None (Some "A post.") (Some 1700000000)
               (Some (Z.of_nat story_id * 30)))).

(** A Wikipedia API whose search finds three pages: one whose requests
    succeed, one whose summary cannot be had, and one without a key. *)
Definition sample_wiki : WikipediaService.api :=
  WikipediaService.mk_api
    (fun _ _ => Some [Some "Quantum_computing"; Some "Qubit"; None])
    (fun page_key =>
       if String.eqb page_key "Quantum_computing"
       then Some (WikipediaService.mk_summary
                    (Some "Quantum computing")
                    (Some "https://en.wikipedia.org/wiki/Quantum_computing")
                    (Some "A quantum computer computes."))
       else None)
    (fun _ => Some ["  A quantum computer exploits superposition. "; " "; "It computes."]).

(** * Properties *)

(** ** The embedding on sample inputs *)

Example ex_split : PyStr.split "  hello   brave new  world " = ["hello"; "brave"; "new"; "world"].
Proof. reflexivity. Qed.

Example ex_re_split : PyStr.re_split_terminators "One. Two!? Three." = ["One"; " Two"; " Three"; ""].
Proof. reflexivity. Qed.

Example ex_strip : PyStr.strip "  a b  " = "a b".
Proof. reflexivity. Qed.

Example ex_keywords :
  ContentProcessor.extract_keywords "The quantum cat; the QUANTUM dog, with quantum cats and dogs and dogs" 10
  = ["quantum"; "dogs"; "cats"].
Proof. vm_compute. reflexivity. Qed.

Example ex_summary :
  ContentProcessor.generate_summary "One.  Two! Three? Four." 3 = "One. Two. Three.".
Proof. vm_compute. reflexivity. Qed.

(** ** The record store *)

Section LogTable.
Import ResearchService.



Lemma find_fresh (n : nat) (l : WorkflowLog.t) (rows : list WorkflowLog.t) :
  WorkflowLog.id l = n ->
  Forall (fun x => (WorkflowLog.id x < n)%nat) rows ->
  List.find (fun x => Nat.eqb (WorkflowLog.id x) n) (rows ++ [l]) = Some l.
Proof.
  intros Hl Hrows. induction Hrows as [|x rows Hx _ IH]; simpl.
  - by rewrite Hl, Nat.eqb_refl.
  - destruct (Nat.eqb_spec (WorkflowLog.id x) n); [lia | done].
Qed.

Lemma replace_fresh (l l' : WorkflowLog.t) (rows : list WorkflowLog.t) :
  Forall (fun x => (WorkflowLog.id x < WorkflowLog.id l)%nat) rows ->
  WorkflowLog.id l' = WorkflowLog.id l ->
  replace_log l' (rows ++ [l]) = rows ++ [l'].
Proof.
  intros Hrows Hl. induction Hrows as [|x rows Hx _ IH]; simpl.
  - by rewrite Hl, Nat.eqb_refl.
  - rewrite Hl. destruct (Nat.eqb_spec (WorkflowLog.id x) (WorkflowLog.id l)); [lia|].
    by f_equal.
Qed.

(** [update_workflow_log] never raises and touches the log table and the
    clock only. *)
Lemma update_workflow_log_returns (log_id : nat) (status : string)
    (message : option string) (details : option json) (db : DB) :
  exists o db',
    update_workflow_log log_id status message details db = (Return o, db') /\
    research_requests db' = research_requests db /\
    status_history db' = status_history db /\
    next_request_id db' = next_request_id db /\
    next_log_id db' = next_log_id db /\
    articles db' = articles db.
Proof.
  unfold update_workflow_log, bind, gets, modify, ret.
  destruct (find_log log_id db) as [l|]; [|by eexists _, _].
  destruct (String.eqb status "completed"); simpl; by eexists _, _.
Qed.
End LogTable.







(** ** Strings *)

Section Strings.
Import PyStr.

Lemma append_nil_r (s : string) : s +:+ "" = s.
Proof. induction s as [|c s IH]; [done|]. change (String c (s +:+ "") = String c s). by rewrite IH. Qed.

Lemma append_cons (c : ascii) (s t : string) : String c s +:+ t = String c (s +:+ t).
Proof. done. Qed.

Lemma append_assoc (s t u : string) : (s +:+ t) +:+ u = s +:+ (t +:+ u).
Proof.
  induction s as [|c s IH]; [done|]. rewrite !append_cons. by rewrite IH.
Qed.

Lemma truthy_true (s : string) : truthy s = true <-> s <> "".
Proof. by destruct s. Qed.

Lemma lstrip_isspace (c : ascii) (s : string) :
  isspace c = true -> lstrip (String c s) = lstrip s.
Proof. intros H. simpl. by rewrite H. Qed.

Lemma strip_isspace (c : ascii) (s : string) :
  isspace c = true -> strip (String c s) = strip s.
Proof.
  intros H. unfold strip. simpl.
  destruct (rstrip s) eqn:E; rewrite ?H; simpl; by rewrite ?H.
Qed.

Lemma lstrip_idem (s : string) : lstrip (lstrip s) = lstrip s.
Proof.
  induction s as [|c s IH]; [done|]. simpl.
  destruct (isspace c) eqn:E; [done|]. simpl. by rewrite E.
Qed.

Lemma rstrip_idem (s : string) : rstrip (rstrip s) = rstrip s.
Proof.
  induction s as [|c s IH]; [done|]. simpl.
  destruct (rstrip s) as [|d r] eqn:E.
  - destruct (isspace c) eqn:Ec; [done|]. simpl. by rewrite Ec.
  - simpl in *. by rewrite IH.
Qed.

Lemma rstrip_fixed_tail (c : ascii) (s : string) :
  rstrip (String c s) = String c s -> rstrip s = s.
Proof.
  simpl. destruct (rstrip s) as [|d r] eqn:E.
  - destruct (isspace c); [done|]. by intros [= <-].
  - by intros [= <-].
Qed.

Lemma rstrip_lstrip_fixed (s : string) : rstrip s = s -> rstrip (lstrip s) = lstrip s.
Proof.
  induction s as [|c s IH]; [done|]. intros H.
  simpl lstrip. destruct (isspace c); [|done].
  apply IH. by apply rstrip_fixed_tail with c.
Qed.

Lemma strip_idem (s : string) : strip (strip s) = strip s.
Proof.
  unfold strip.
  rewrite (rstrip_lstrip_fixed (rstrip s)) by apply rstrip_idem.
  apply lstrip_idem.
Qed.

Lemma all_chars_lstrip (p : ascii -> bool) (s : string) :
  all_chars p s = true -> all_chars p (lstrip s) = true.
Proof.
  induction s as [|c s IH]; [done|]. simpl.
  intros [Hc Hs]%andb_prop. destruct (isspace c); [auto|].
  simpl. by rewrite Hc, Hs.
Qed.

Lemma all_chars_rstrip (p : ascii -> bool) (s : string) :
  all_chars p s = true -> all_chars p (rstrip s) = true.
Proof.
  induction s as [|c s IH]; [done|]. simpl.
  intros [Hc Hs]%andb_prop. specialize (IH Hs).
  destruct (rstrip s) as [|d r].
  - destruct (isspace c); [done|]. simpl. by rewrite Hc.
  - simpl in *. by rewrite Hc, IH.
Qed.

Lemma split_runs_nonempty (b : bool) (s : string) : split_runs b s <> [].
Proof.
  revert b. induction s as [|c s IH]; intros b; simpl; [done|].
  destruct (is_terminator c).
  - destruct b; [apply IH | done].
  - by destruct (split_runs false s).
Qed.

Lemma split_runs_no_terminator (b : bool) (s : string) :
  Forall (fun p => all_chars (fun c => negb (is_terminator c)) p = true) (split_runs b s).
Proof.
  revert b. induction s as [|c s IH]; intros b; simpl.
  - by constructor.
  - destruct (is_terminator c) eqn:E.
    + destruct b; [apply IH | constructor; [done | apply IH]].
    + specialize (IH false). destruct (split_runs false s) as [|p ps].
      * constructor; [simpl; by rewrite E | done].
      * inversion IH as [|? ? Hp Hps]; subst. constructor; [|done].
        simpl. by rewrite E, Hp.
Qed.

Lemma split_runs_app (s t : string) (b : bool) :
  s <> "" ->
  all_chars (fun c => negb (is_terminator c)) s = true ->
  split_runs b (s +:+ t)
  = (s +:+ hd "" (split_runs false t)) :: tl (split_runs false t).
Proof.
  revert b. induction s as [|c s IH]; intros b Hne Hs; [done|].
  simpl in Hs. apply andb_prop in Hs as [Hc Hs].
  apply negb_true_iff in Hc.
  rewrite !append_cons. simpl. rewrite Hc.
  destruct s as [|d s].
  - change ("" +:+ t) with t.
    pose proof (split_runs_nonempty false t).
    by destruct (split_runs false t).
  - by rewrite (IH false).
Qed.
End Strings.

(** ** The summary extractor *)

Section Summary.
Import PyStr ContentProcessor.

Lemma sentences_clean (text : string) : Forall clean_sentence (sentences text).
Proof.
  unfold sentences, re_split_terminators.
  pose proof (split_runs_no_terminator false text) as H.
  induction H as [|p ps Hp _ IH]; simpl; [done|].
  destruct (truthy (strip p)) eqn:E; [|done].
  constructor; [|done]. repeat split.
  - by apply truthy_true.
  - by apply all_chars_lstrip, all_chars_rstrip.
  - apply strip_idem.
Qed.

Lemma render_cons (s s' : string) (ss : list string) :
  render (s :: s' :: ss) = s +:+ String "." (String " " (render (s' :: ss))).
Proof.
  unfold render, join. change (String.concat ". " (s :: s' :: ss))
    with (s +:+ ". " +:+ String.concat ". " (s' :: ss)).
  by rewrite !append_assoc.
Qed.

Lemma sentences_render (ss : list string) :
  Forall clean_sentence ss -> sentences (render ss) = ss.
Proof.
  induction 1 as [|s ss (Hne & Hterm & Hstrip) Hss IH]; [done|].
  destruct ss as [|s' ss].
  - unfold sentences, re_split_terminators, render, join. simpl String.concat.
    rewrite (split_runs_app s "." false Hne Hterm). simpl.
    rewrite append_nil_r, Hstrip.
    apply truthy_true in Hne. by rewrite Hne.
  - rewrite render_cons. unfold sentences, re_split_terminators in *.
    rewrite (split_runs_app s _ false Hne Hterm).
    remember (render (s' :: ss)) as rest eqn:Hrest. clear Hrest.
    simpl split_runs.
    pose proof (split_runs_nonempty false rest) as Hp.
    destruct (split_runs false rest) as [|p ps]; [done|].
    simpl. rewrite append_nil_r, Hstrip.
    apply truthy_true in Hne. rewrite Hne. f_equal.
    rewrite strip_isspace by done. exact IH.
Qed.

Lemma generate_summary_render (text : string) :
  text <> "" -> generate_summary text 3 = render (firstn 3 (sentences text)).
Proof.
  intros Hne. unfold generate_summary, render.
  apply truthy_true in Hne. rewrite Hne.
  destruct (Nat.leb_spec (length (sentences text)) 3); [|done].
  by rewrite firstn_all2.
Qed.
End Summary.

(** C7, as the code has it. Splitting the summary again gives the first
    three sentences of the text, so the summary never holds more than three
    sentences; for a text that is not empty and has at most three sentences
    the summary is those sentences joined with [". "] and closed with a
    period; the summary of the empty text is the empty string. *)
Theorem generate_summary_sentences (text : string) :
  (length (ContentProcessor.sentences (ContentProcessor.generate_summary text 3)) <= 3)%nat /\
  ContentProcessor.sentences (ContentProcessor.generate_summary text 3)
    = firstn 3 (ContentProcessor.sentences text) /\
  (text <> "" ->
   (length (ContentProcessor.sentences text) <= 3)%nat ->
   ContentProcessor.generate_summary text 3
     = PyStr.join ". " (ContentProcessor.sentences text) +:+ ".") /\
  (text = "" -> ContentProcessor.generate_summary text 3 = "").
Proof.
  assert (ContentProcessor.sentences (ContentProcessor.generate_summary text 3)
          = firstn 3 (ContentProcessor.sentences text)) as Hround.
  { destruct text as [|c text]; [done|].
    rewrite generate_summary_render by done.
    apply sentences_render, Forall_take, sentences_clean. }
  split; [|split; [done|split]].
  - rewrite Hround. rewrite length_take. lia.
  - intros Hne Hlen. rewrite generate_summary_render by done.
    unfold render. by rewrite firstn_all2.
  - by intros ->.
Qed.

(** C7, as the specification words it, fails on the empty text: it has no
    sentence, and its summary is the empty string, not a lone period. *)
Lemma generate_summary_empty_text :
  ~ ((length (ContentProcessor.sentences "") <= 3)%nat ->
     ContentProcessor.generate_summary "" 3
       = PyStr.join ". " (ContentProcessor.sentences "") +:+ ".").
Proof. intros H. specialize (H ltac:(vm_compute; lia)). vm_compute in H. discriminate H. Qed.

Lemma generate_summary_sentences_witness :
  ContentProcessor.generate_summary "One.  Two! Three?" 3 = "One. Two. Three.".
Proof.
  destruct (generate_summary_sentences "One.  Two! Three?") as (_ & _ & H & _).
  rewrite H; [reflexivity | discriminate | vm_compute; lia].
Defined.

(** ** The stable descending sort *)

Section SortFacts.
Context {A : Type} (key : A -> Z).

Lemma insert_desc_perm (x : A) (l : list A) : insert_desc key x l ≡ₚ x :: l.
Proof.
  induction l as [|y l IH]; simpl; [done|].
  destruct (key x <? key y); [|done].
  rewrite IH. apply Permutation_swap.
Qed.

Lemma sorted_reverse_perm (l : list A) : sorted_reverse key l ≡ₚ l.
Proof.
  induction l as [|x l IH]; simpl; [done|].
  by rewrite insert_desc_perm, IH.
Qed.

Lemma sorted_reverse_length (l : list A) : length (sorted_reverse key l) = length l.
Proof. by rewrite sorted_reverse_perm. Qed.

Lemma insert_desc_sorted (x : A) (l : list A) :
  StronglySorted (fun a b => key b <= key a) l ->
  StronglySorted (fun a b => key b <= key a) (insert_desc key x l).
Proof.
  induction 1 as [|y l Hl IH Hy]; simpl.
  - repeat constructor.
  - destruct (Z.ltb_spec (key x) (key y)).
    + constructor; [done|]. rewrite insert_desc_perm. constructor; [lia | done].
    + constructor; [by constructor|]. constructor; [done|].
      eapply Forall_impl; [exact Hy|]. simpl. intros; lia.
Qed.

Lemma sorted_reverse_sorted (l : list A) :
  StronglySorted (fun a b => key b <= key a) (sorted_reverse key l).
Proof.
  induction l as [|x l IH]; simpl; [constructor | by apply insert_desc_sorted].
Qed.

Lemma insert_desc_class (k : Z) (x : A) (l : list A) :
  List.filter (fun a => key a =? k) (insert_desc key x l)
  = List.filter (fun a => key a =? k) (x :: l).
Proof.
  induction l as [|y l IH]; [done|].
  simpl insert_desc. destruct (Z.ltb_spec (key x) (key y)); [|done].
  simpl in *. rewrite IH.
  destruct (Z.eqb_spec (key x) k), (Z.eqb_spec (key y) k); (done || lia).
Qed.

(** Stability: the elements of one key keep the order they had. *)
Lemma sorted_reverse_stable (k : Z) (l : list A) :
  List.filter (fun a => key a =? k) (sorted_reverse key l)
  = List.filter (fun a => key a =? k) l.
Proof.
  induction l as [|x l IH]; [done|].
  simpl sorted_reverse. rewrite insert_desc_class. simpl. by rewrite IH.
Qed.

Lemma before_cons (x y z : A) (l : list A) : before l x y -> before (z :: l) x y.
Proof. intros (i & j & ? & ? & ?). exists (S i), (S j). repeat split; [lia | done..]. Qed.

Lemma before_head (x z : A) (l : list A) : z ∈ l -> before (x :: l) x z.
Proof.
  intros [j Hj]%list_elem_of_lookup. exists 0%nat, (S j). repeat split; [lia | done..].
Qed.

Lemma insert_desc_stably (x : A) (l s : list A) :
  (forall z, z ∈ s -> z ∈ l) ->
  StronglySorted (sorted_stably key l) s ->
  StronglySorted (sorted_stably key (x :: l)) (insert_desc key x s).
Proof.
  intros Hsub Hs. induction Hs as [|y s Hs IH Hy]; simpl.
  - repeat constructor.
  - assert (forall a b, sorted_stably key l a b -> sorted_stably key (x :: l) a b) as Hlift.
    { intros a b [?|[? ?]]; [by left | right; split; [done | by apply before_cons]]. }
    destruct (Z.ltb_spec (key x) (key y)).
    + constructor.
      * apply IH. intros z Hz. apply Hsub. by right.
      * rewrite insert_desc_perm. constructor; [by left|].
        eapply Forall_impl; [exact Hy | auto].
    + constructor.
      * constructor.
        -- clear IH. induction Hs as [|a s' Hs' IH' Ha]; constructor.
           ++ apply IH'; [intros z Hz; apply Hsub | by inversion Hy].
              apply list_elem_of_In. apply list_elem_of_In in Hz.
              destruct Hz as [->|Hz]; [by left | by right; right].
           ++ eapply Forall_impl; [exact Ha | auto].
        -- eapply Forall_impl; [exact Hy | auto].
      * assert (forall z, z ∈ y :: s -> key z <= key y) as Hle.
        { intros z [->|Hz]%elem_of_cons; [lia|].
          rewrite Forall_forall in Hy. destruct (Hy z Hz) as [?|[? _]]; lia. }
        apply Forall_forall. intros z Hz. specialize (Hle z Hz).
        destruct (Z.eq_dec (key z) (key x)) as [E|E].
        -- right. split; [done|]. apply before_head. by apply Hsub.
        -- left. lia.
Qed.

(** In the sorted list a larger key comes first, and of two elements with
    one key the one that came first in [l] comes first. *)
Lemma sorted_reverse_stably (l : list A) :
  StronglySorted (sorted_stably key l) (sorted_reverse key l).
Proof.
  induction l as [|x l IH]; simpl; [constructor|].
  apply insert_desc_stably; [|done].
  intros z. by rewrite sorted_reverse_perm.
Qed.
End SortFacts.

(** ** The aggregator *)

Lemma filter_take_prefix {A} (f : A -> bool) (n : nat) (l : list A) :
  List.filter f (take n l) `prefix_of` List.filter f l.
Proof.
  exists (List.filter f (drop n l)).
  by rewrite <- List.filter_app, take_drop.
Qed.


Lemma gather_research_data_length (env : Env) (topic : string) :
  (length (ExternalAPIService.gather_research_data env topic) <= 5)%nat.
Proof.
  unfold ExternalAPIService.gather_research_data. rewrite length_take. lia.
Qed.

(** C5. Whatever the providers reply, the list that [gather_research_data]
    returns has at most five items, is sorted by descending
    [relevance_score], keeps the items of one score in the order in which
    they were fetched (Wikipedia's before Hacker News's, each in its own
    order), and is the head of the sorted list: every item left out scores
    no higher than every item returned. *)
Theorem gather_research_data_sorted (env : Env) (topic : string) :
  let fetched := ExternalAPIService.processed_articles env topic in
  let returned := ExternalAPIService.gather_research_data env topic in
  (length returned <= 5)%nat /\
  StronglySorted
    (fun a b => Candidate.relevance_score b <= Candidate.relevance_score a) returned /\
  (forall score,
     List.filter (fun a => Candidate.relevance_score a =? score) returned
       `prefix_of` List.filter (fun a => Candidate.relevance_score a =? score) fetched) /\
  (exists dropped,
     returned ++ dropped ≡ₚ fetched /\
     forall a b, a ∈ returned -> b ∈ dropped ->
                 Candidate.relevance_score b <= Candidate.relevance_score a).
Proof.
  intros fetched returned. subst returned.
  unfold ExternalAPIService.gather_research_data. fold fetched.
  pose proof (sorted_reverse_sorted Candidate.relevance_score fetched) as Hsorted.
  rewrite <- (take_drop 5 (sorted_reverse _ fetched)) in Hsorted.
  repeat split.
  - apply gather_research_data_length.
  - by apply StronglySorted_app_1_l in Hsorted.
  - intros score.
    rewrite <- (sorted_reverse_stable Candidate.relevance_score score fetched).
    apply filter_take_prefix.
  - exists (drop 5 (sorted_reverse Candidate.relevance_score fetched)). split.
    + rewrite take_drop. apply sorted_reverse_perm.
    + intros a b Ha Hb.
      exact (StronglySorted_app_1_elem_of _ _ _ _ _ Hsorted Ha Hb).
Qed.

Lemma gather_research_data_sorted_witness :
  map Candidate.relevance_score
      (ExternalAPIService.gather_research_data link_story_env "quantum") = [100; 80] /\
  (length (ExternalAPIService.gather_research_data link_story_env "quantum") <= 5)%nat.
Proof.
  split; [reflexivity|].
  exact (proj1 (gather_research_data_sorted link_story_env "quantum")).
Defined.

(** ** Counting and ranking words *)

Section Counting.

Lemma occurrences_snoc (ws : list string) (w k : string) :
  occurrences (ws ++ [w]) k
  = (occurrences ws k + if decide (k = w) then 1 else 0)%nat.
Proof.
  unfold occurrences. rewrite List.filter_app, length_app. simpl.
  destruct (String.eqb_spec k w), (decide (k = w)); done.
Qed.

Lemma occurrences_absent (ws : list string) (w : string) :
  w ∉ ws -> occurrences ws w = 0%nat.
Proof.
  unfold occurrences. induction ws as [|x ws IH]; [done|].
  intros [Hx Hws]%not_elem_of_cons. simpl.
  destruct (String.eqb_spec w x); [done | auto].
Qed.

Lemma index_of_lt (ws : list string) (w : string) :
  w ∈ ws -> (index_of w ws < length ws)%nat.
Proof.
  induction ws as [|x ws IH]; [by intros ?%elem_of_nil|].
  intros Hw. simpl. destruct (String.eqb_spec x w) as [->|Hne]; [lia|].
  apply elem_of_cons in Hw as [->|Hw]; [done|]. specialize (IH Hw). lia.
Qed.

Lemma index_of_snoc (ws : list string) (w k : string) :
  k ∈ ws -> index_of k (ws ++ [w]) = index_of k ws.
Proof.
  induction ws as [|x ws IH]; [by intros ?%elem_of_nil|].
  intros Hk. simpl. destruct (String.eqb_spec x k) as [->|Hne]; [done|].
  apply elem_of_cons in Hk as [->|Hk]; [done|]. by rewrite IH.
Qed.

Lemma index_of_new (ws : list string) (w : string) :
  w ∉ ws -> index_of w (ws ++ [w]) = length ws.
Proof.
  induction ws as [|x ws IH]; simpl.
  - by rewrite String.eqb_refl.
  - intros [Hx Hws]%not_elem_of_cons.
    destruct (String.eqb_spec x w); [done|]. by rewrite IH.
Qed.

Lemma get_tally (g : string -> Z) (ks : list string) (w : string) :
  Counter.get w 0 (map (fun k => (k, g k)) ks) = if decide (w ∈ ks) then g w else 0.
Proof.
  induction ks as [|k ks IH].
  - destruct (decide (w ∈ [])) as [?%elem_of_nil|]; done.
  - cbn [map Counter.get]. destruct (String.eqb_spec w k) as [->|Hne].
    + by rewrite decide_True by left.
    + rewrite IH. destruct (decide (w ∈ ks)).
      * by rewrite decide_True by (by right).
      * by rewrite decide_False by (by intros [?|?]%elem_of_cons).
Qed.

Lemma set_tally_old (g g' : string -> Z) (ks : list string) (w : string) (v : Z) :
  NoDup ks -> w ∈ ks ->
  g' w = v -> (forall k, k <> w -> g' k = g k) ->
  Counter.set w v (map (fun k => (k, g k)) ks) = map (fun k => (k, g' k)) ks.
Proof.
  intros Hnd Hw Hv Hg. induction Hnd as [|k ks Hk Hnd IH]; [by apply elem_of_nil in Hw|].
  simpl. destruct (String.eqb_spec w k) as [->|Hne].
  - rewrite Hv. f_equal. apply map_ext_in. intros a Ha%list_elem_of_In.
    rewrite Hg; [done|]. by intros ->.
  - rewrite Hg by done. f_equal. apply IH.
    by apply elem_of_cons in Hw as [?|?].
Qed.

Lemma set_tally_new (g g' : string -> Z) (ks : list string) (w : string) (v : Z) :
  w ∉ ks ->
  g' w = v -> (forall k, k <> w -> g' k = g k) ->
  Counter.set w v (map (fun k => (k, g k)) ks) = map (fun k => (k, g' k)) (ks ++ [w]).
Proof.
  intros Hw Hv Hg. induction ks as [|k ks IH]; simpl.
  - by rewrite Hv.
  - apply not_elem_of_cons in Hw as [Hne Hw].
    destruct (String.eqb_spec w k); [done|].
    rewrite Hg by done. f_equal. by apply IH.
Qed.

Context (p : string -> bool).

(** One round of the counting loop. *)
Lemma count_round (pre ks : list string) (w : string) :
  first_seen_keys p pre ks ->
  exists ks',
    (if p w then Counter.incr (tally pre ks) w else tally pre ks) = tally (pre ++ [w]) ks' /\
    first_seen_keys p (pre ++ [w]) ks'.
Proof.
  intros (Hnd & Hks & Hord).
  assert (forall k, k ∈ ks -> k ∈ pre) as Hpre by (intros k; rewrite Hks; tauto).
  assert (StronglySorted (fun a b => (index_of a (pre ++ [w]) < index_of b (pre ++ [w]))%nat) ks)
    as Hord'.
  { clear Hks. induction Hord as [|k ks Hord IH Hk]; constructor.
    - apply IH; [by inversion Hnd | intros; apply Hpre; by right].
    - rewrite Forall_forall in Hk |- *. intros b Hb.
      rewrite !index_of_snoc; [by apply Hk | apply Hpre; by right | apply Hpre; by left]. }
  destruct (p w) eqn:Hp.
  - unfold Counter.incr, tally. rewrite get_tally.
    destruct (decide (w ∈ ks)) as [Hin|Hout].
    + exists ks. split.
      * apply set_tally_old; [done | done | |].
        -- rewrite occurrences_snoc, decide_True by done. lia.
        -- intros k Hk. by rewrite occurrences_snoc, decide_False, Nat.add_0_r by done.
      * split; [done|]. split; [|done].
        intros k. rewrite Hks, elem_of_app, list_elem_of_singleton.
        split; [tauto|]. intros [[?| ->] ?]; [done|]. by apply Hks.
    + assert (w ∉ pre) as Hnew by (intros ?; apply Hout, Hks; done).
      exists (ks ++ [w]). split.
      * apply set_tally_new; [done | |].
        -- rewrite occurrences_snoc, decide_True, occurrences_absent by done. lia.
        -- intros k Hk. by rewrite occurrences_snoc, decide_False, Nat.add_0_r by done.
      * split; [|split].
        -- apply NoDup_app. split; [done|]. split; [|apply NoDup_singleton].
           intros k Hk ->%list_elem_of_singleton. done.
        -- intros k. rewrite !elem_of_app, !list_elem_of_singleton, Hks.
           split; [intros [[? ?]| ->]; auto | intros [[?| ->] ?]; auto].
        -- apply StronglySorted_app. split; [|split; [done | repeat constructor]].
           intros a b Ha ->%list_elem_of_singleton.
           rewrite index_of_new, index_of_snoc by auto.
           apply index_of_lt; auto.
  - exists ks. split.
    + unfold tally. apply map_ext_in. intros k Hk%list_elem_of_In.
      rewrite occurrences_snoc, decide_False, Nat.add_0_r; [done|].
      intros ->. apply Hks in Hk as [_ Hk]. congruence.
    + split; [done|]. split; [|done].
      intros k. rewrite Hks, elem_of_app, list_elem_of_singleton.
      split; [tauto|]. intros [[?| ->] ?]; [done | congruence].
Qed.

Lemma count_rounds (ws pre ks : list string) :
  first_seen_keys p pre ks ->
  exists ks',
    fold_left (fun d w => if p w then Counter.incr d w else d) ws (tally pre ks)
      = tally (pre ++ ws) ks' /\
    first_seen_keys p (pre ++ ws) ks'.
Proof.
  revert pre ks. induction ws as [|w ws IH]; intros pre ks Hks; simpl.
  - exists ks. by rewrite app_nil_r.
  - destruct (count_round pre ks w Hks) as (ks1 & -> & Hks1).
    destruct (IH _ _ Hks1) as (ks2 & -> & Hks2).
    exists ks2. by rewrite <- app_assoc in Hks2 |- *.
Qed.

(** The counting loop, started on the empty dict. *)
Lemma count_loop (ws : list string) :
  exists ks,
    fold_left (fun d w => if p w then Counter.incr d w else d) ws [] = tally ws ks /\
    first_seen_keys p ws ks.
Proof.
  apply (count_rounds ws [] []).
  split; [constructor|]. split; [|constructor].
  intros k. split; [by intros ?%elem_of_nil | by intros [?%elem_of_nil _]].
Qed.
End Counting.

Section Ranking.
Context (p : string -> bool).

Lemma map_fmap {A B} (f : A -> B) (l : list A) : map f l = f <$> l.
Proof. done. Qed.

Lemma StronglySorted_lookup {A} (R : A -> A -> Prop) (l : list A) (i j : nat) (x y : A) :
  StronglySorted R l -> (i < j)%nat -> l !! i = Some x -> l !! j = Some y -> R x y.
Proof.
  intros Hl. revert i j. induction Hl as [|a l Hl IH Ha]; intros i j Hij Hi Hj.
  - by rewrite lookup_nil in Hi.
  - destruct j as [|j]; [lia|]. simpl in Hj. destruct i as [|i].
    + simpl in Hi. injection Hi as ->. rewrite Forall_forall in Ha.
      apply Ha. by eapply list_elem_of_lookup_2.
    + simpl in Hi. apply (IH i j); [lia | done..].
Qed.

Lemma tally_keys (ws ks : list string) : map fst (tally ws ks) = ks.
Proof. unfold tally. rewrite map_map. simpl. apply map_id. Qed.

Lemma tally_elem (ws ks : list string) (e : string * Z) :
  e ∈ tally ws ks <-> e.1 ∈ ks /\ e.2 = Z.of_nat (occurrences ws e.1).
Proof.
  unfold tally. rewrite map_fmap, list_elem_of_fmap. split.
  - by intros (k & -> & Hk).
  - intros [Hk He]. exists e.1. split; [|done]. destruct e; simpl in *. by rewrite He.
Qed.

(** The order of the sorted counter dict, read on the words. *)
Lemma tally_outranks (ws ks : list string) (e1 e2 : string * Z) :
  first_seen_keys p ws ks ->
  e1 ∈ tally ws ks -> e2 ∈ tally ws ks ->
  sorted_stably snd (tally ws ks) e1 e2 ->
  outranks ws e1.1 e2.1.
Proof.
  intros (_ & _ & Hord) [_ H1]%tally_elem [_ H2]%tally_elem [Hlt|[Heq Hbefore]].
  - left. lia.
  - right. split; [lia|].
    destruct Hbefore as (i & j & Hij & Hi & Hj).
    unfold tally in Hi, Hj. rewrite map_fmap, list_lookup_fmap in Hi, Hj.
    destruct (ks !! i) as [k1|] eqn:E1; [|done].
    destruct (ks !! j) as [k2|] eqn:E2; [|done].
    simpl in Hi, Hj. injection Hi as <-. injection Hj as <-. simpl.
    exact (StronglySorted_lookup _ _ _ _ _ _ Hord Hij E1 E2).
Qed.

(** The counting loop followed by the stable sort and the cap gives the
    [n] highest-ranked words. *)
Lemma count_sort_cap (ws : list string) (n : nat) :
  top_ranked p ws n
    (map fst (take n (sorted_reverse snd
       (fold_left (fun d w => if p w then Counter.incr d w else d) ws [])))).
Proof.
  destruct (count_loop p ws) as (ks & -> & Hkeys).
  pose proof Hkeys as (Hnd & Hks & Hord).
  set (d := tally ws ks).
  pose proof (sorted_reverse_perm snd d) as Hperm.
  pose proof (sorted_reverse_stably snd d) as Hsorted.
  assert (forall e, e ∈ take n (sorted_reverse snd d) -> e ∈ d) as Htake.
  { intros e (i & Hi & _)%elem_of_take. rewrite <- Hperm.
    by eapply list_elem_of_lookup_2. }
  rewrite <- (take_drop n (sorted_reverse snd d)) in Hsorted.
  repeat split.
  - rewrite length_map, length_take. lia.
  - rewrite map_fmap, fmap_take. eapply sublist_NoDup; [|apply sublist_take].
    rewrite <- map_fmap, Hperm. subst d. by rewrite tally_keys.
  - apply Hks. rewrite map_fmap in H. apply list_elem_of_fmap in H as (e & -> & He).
    apply Htake in He. by apply tally_elem in He as [? _].
  - apply Hks. rewrite map_fmap in H. apply list_elem_of_fmap in H as (e & -> & He).
    apply Htake in He. by apply tally_elem in He as [? _].
  - intros i j ki kj Hij Hi Hj.
    rewrite map_fmap, list_lookup_fmap in Hi, Hj.
    destruct (take n (sorted_reverse snd d) !! i) as [ei|] eqn:Ei; [|done].
    destruct (take n (sorted_reverse snd d) !! j) as [ej|] eqn:Ej; [|done].
    injection Hi as <-. injection Hj as <-.
    apply (tally_outranks ws ks); [done | | |].
    + apply Htake. by eapply list_elem_of_lookup_2.
    + apply Htake. by eapply list_elem_of_lookup_2.
    + apply StronglySorted_app_1_l in Hsorted.
      exact (StronglySorted_lookup _ _ _ _ _ _ Hsorted Hij Ei Ej).
  - assert ((w, Z.of_nat (occurrences ws w)) ∈ drop n (sorted_reverse snd d)) as Hdrop.
    { assert ((w, Z.of_nat (occurrences ws w)) ∈ d) as Hd
        by (apply tally_elem; split; [by apply Hks | done]).
      rewrite <- Hperm, <- (take_drop n (sorted_reverse snd d)) in Hd.
      apply elem_of_app in Hd as [Hd|Hd]; [|done].
      exfalso. apply H1. rewrite map_fmap.
      by apply (list_elem_of_fmap_2 fst) in Hd. }
    rewrite length_map, length_take.
    apply list_elem_of_lookup in Hdrop as [i Hi].
    apply lookup_lt_Some in Hi. rewrite length_drop in Hi. lia.
  - intros k Hk. rewrite map_fmap in Hk.
    apply list_elem_of_fmap in Hk as (e & -> & He).
    assert ((w, Z.of_nat (occurrences ws w)) ∈ d) as Hd
      by (apply tally_elem; split; [by apply Hks | done]).
    assert ((w, Z.of_nat (occurrences ws w)) ∈ drop n (sorted_reverse snd d)) as Hdrop.
    { pose proof Hd as Hd'.
      rewrite <- Hperm, <- (take_drop n (sorted_reverse snd d)) in Hd'.
      apply elem_of_app in Hd' as [Hd'|Hd']; [|done].
      exfalso. apply H1. rewrite map_fmap.
      by apply (list_elem_of_fmap_2 fst) in Hd'. }
    apply (tally_outranks ws ks _ (w, Z.of_nat (occurrences ws w)));
      [done | by apply Htake | done |].
    exact (StronglySorted_app_1_elem_of _ _ _ _ _ Hsorted He Hdrop).
Qed.
End Ranking.

(** ** The keyword extractor *)

Lemma extract_keywords_unfold (text : string) :
  ContentProcessor.extract_keywords text 10
  = map fst (take 10 (sorted_reverse snd
      (ContentProcessor.count_words (ContentProcessor.tokens text)))).
Proof. by destruct text. Qed.

(** C6. [extract_keywords] is a function of its text, so equal texts give
    equal keyword lists.  The keywords are distinct tokens of the
    lower-cased, punctuation-stripped text, each longer than three
    characters and none a stop word; there are at most ten; a keyword that
    occurs more often comes first, and of two that occur equally often the
    one seen first in the token stream comes first; a counted token is left
    out only when ten keywords that rank above it are returned. *)
Theorem extract_keywords_ranked (text : string) :
  let keywords := ContentProcessor.extract_keywords text 10 in
  (forall text', text' = text -> ContentProcessor.extract_keywords text' 10 = keywords) /\
  top_ranked ContentProcessor.counted (ContentProcessor.tokens text) 10 keywords /\
  (forall k, k ∈ keywords ->
     (3 < String.length k)%nat /\ k ∉ ContentProcessor.stop_words).
Proof.
  intros keywords.
  assert (top_ranked ContentProcessor.counted (ContentProcessor.tokens text) 10 keywords)
    as Htop.
  { subst keywords. rewrite extract_keywords_unfold.
    apply (count_sort_cap ContentProcessor.counted). }
  split; [by intros ? ->|]. split; [done|].
  intros k Hk. destruct Htop as (_ & _ & Hin & _).
  destruct (Hin k Hk) as [Hcounted _].
  unfold ContentProcessor.counted in Hcounted.
  apply andb_prop in Hcounted as [Hlen Hstop].
  split; [by apply Nat.ltb_lt in Hlen|].
  apply negb_true_iff in Hstop. by apply bool_decide_eq_false in Hstop.
Qed.

Lemma extract_keywords_ranked_witness :
  ContentProcessor.extract_keywords "Quantum dogs and quantum cats" 10
  = ContentProcessor.extract_keywords "Quantum dogs and quantum cats" 10.
Proof.
  destruct (extract_keywords_ranked "Quantum dogs and quantum cats") as (H & _ & _).
  apply (H "Quantum dogs and quantum cats"). reflexivity.
Defined.

(** ** The processing stage *)




Lemma take_all (n : nat) (s : string) : (String.length s <= n)%nat -> PyStr.take n s = s.
Proof.
  unfold PyStr.take. revert s. induction n as [|n IH]; intros [|c s]; simpl; try done.
  - lia.
  - intros H. rewrite IH; [done | lia].
Qed.





(** ** The stages *)

Section Stages.
Import ResearchService Workflow.

Lemma ran_compose (request_id : nat) (t1 t2 : list (WorkflowStep.t * string))
    (db db1 db2 : DB) :
  ran request_id t1 db db1 -> ran request_id t2 db1 db2 ->
  ran request_id (t1 ++ t2) db db2.
Proof.
  intros ((Hr1 & Hh1 & Hn1) & _ & es1 & Hl1 & Ht1 & Hf1)
         ((Hr2 & Hh2 & Hn2) & Hfresh & es2 & Hl2 & Ht2 & Hf2).
  split; [|split; [done|]].
  - repeat split; congruence.
  - exists (es1 ++ es2). rewrite Hl2, Hl1, <- app_assoc. split; [done|].
    split; [|by apply Forall_app].
    unfold trail in *. by rewrite map_app, Ht1, Ht2.
Qed.

(** Evaluation of a stage: unfold the monad, then use that the entry
    created last is the one found and replaced. *)
Ltac stage_eval Hfresh :=
  repeat first
    [ progress cbn -[String.append pretty PyStr.strip String.length
                     ExternalAPIService.gather_research_data
                     top_keywords overall_summary distinct take
                     ranked_articles detail_of Nat.ltb]
    | rewrite find_fresh by (reflexivity || exact Hfresh)
    | rewrite replace_fresh by (exact Hfresh || reflexivity) ].

Ltac ran_solve Hfresh :=
  split; [done|]; split;
  [ unfold fresh_log_ids in *; cbn; apply Forall_app; split;
    [ eapply Forall_impl; [exact Hfresh | cbn; lia] | repeat constructor; cbn; lia ]
  | eexists [_]; cbn; split; [reflexivity|]; split; [reflexivity|];
    by repeat constructor ].

Lemma execute_input_parsing_run (request_id : nat) (topic : string) (db : DB) :
  fresh_log_ids db ->
  exists db',
    execute_input_parsing request_id topic db
    = (match validation_error topic with
       | Some e => Raise e
       | None => Return (Parsed.mk topic (PyStr.strip topic)
                                   (String.length (PyStr.strip topic)) true)
       end, db') /\
    ran request_id
        [(WorkflowStep.INPUT_PARSING,
          match validation_error topic with Some _ => "failed" | None => "completed" end)]
        db db'.
Proof.
  intros Hfresh.
  unfold execute_input_parsing, validation_error, log_failed, create_workflow_log,
    update_workflow_log, find_log, try_except, bind, gets, modify, raise, ret, utcnow.
  destruct (negb (PyStr.truthy topic) || _) eqn:Eshort;
    [|destruct (500 <? String.length topic)%nat eqn:Elong];
    stage_eval Hfresh; eexists; (split; [reflexivity|]); ran_solve Hfresh.
Qed.

Lemma execute_data_gathering_run (env : Env) (request_id : nat) (topic : string) (db : DB) :
  fresh_log_ids db ->
  exists db',
    execute_data_gathering env request_id topic db
    = (match fault env WorkflowStep.DATA_GATHERING with
       | Some e => Raise e
       | None => Return (ExternalAPIService.gather_research_data env topic)
       end, db') /\
    ran request_id
        [(WorkflowStep.DATA_GATHERING,
          match fault env WorkflowStep.DATA_GATHERING with
          | Some _ => "failed" | None => "completed" end)]
        db db'.
Proof.
  intros Hfresh.
  unfold execute_data_gathering, log_failed, create_workflow_log,
    update_workflow_log, find_log, try_except, try_finally, external,
    bind, gets, modify, raise, ret, utcnow.
  destruct (fault env WorkflowStep.DATA_GATHERING) as [e|];
    stage_eval Hfresh; eexists; (split; [reflexivity|]); ran_solve Hfresh.
Qed.

Lemma execute_processing_run (request_id : nat) (articles : list Candidate.t) (db : DB) :
  fresh_log_ids db ->
  exists db',
    execute_processing request_id articles db
    = (Return (Processed.mk (take 5 articles)
                 (top_keywords (take 5 articles))
                 (overall_summary (take 5 articles))
                 (distinct (map Candidate.source (take 5 articles)))
                 (length articles) (length (take 5 articles))),
       db') /\
    ran request_id [(WorkflowStep.PROCESSING, "completed")] db db'.
Proof.
  intros Hfresh.
  unfold execute_processing, log_failed, create_workflow_log,
    update_workflow_log, find_log, try_except, bind, gets, modify, raise, ret, utcnow.
  stage_eval Hfresh. eexists; (split; [reflexivity|]); ran_solve Hfresh.
Qed.

(** Updating the entry that was created last. *)
Lemma update_last_log (db : DB) (rows : list WorkflowLog.t) (log : WorkflowLog.t)
    (status : string) (message : option string) (details : option json) :
  workflow_logs db = rows ++ [log] ->
  Forall (fun x => (WorkflowLog.id x < WorkflowLog.id log)%nat) rows ->
  exists log' db',
    update_workflow_log (WorkflowLog.id log) status message details db
      = (Return (Some log'), db') /\
    workflow_logs db' = rows ++ [log'] /\
    WorkflowLog.id log' = WorkflowLog.id log /\
    WorkflowLog.research_request_id log' = WorkflowLog.research_request_id log /\
    WorkflowLog.step log' = WorkflowLog.step log /\
    WorkflowLog.status log' = status /\
    same_header db db' /\
    next_log_id db' = next_log_id db.
Proof.
  intros Hlogs Hrows.
  unfold update_workflow_log, find_log, bind, gets, modify, ret, utcnow.
  rewrite Hlogs, find_fresh by done.
  destruct (String.eqb status "completed"); cbn;
    rewrite Hlogs, replace_fresh by done; by eexists _, _.
Qed.

Lemma save_articles_cons (env : Env) (request_id : nat) (a : Candidate.t)
    (todo : list Candidate.t) (saved : list Article.t) (db : DB) :
  save_articles env request_id (a :: todo) saved db
  = match fault env WorkflowStep.RESULT_PERSISTENCE with
    | Some e => (Raise e, db)
    | None =>
        save_articles env request_id todo
          (saved ++ [Article.mk (next_article_id db) request_id
                       (Candidate.title a) (Candidate.url a) (Candidate.source a)
                       (Candidate.content a) (Candidate.summary a)
                       (Candidate.keywords a) (Candidate.published_at a)
                       (clock db) (Candidate.relevance_score a)])
          (mkDB (research_requests db) (workflow_logs db)
             (articles db ++ [Article.mk (next_article_id db) request_id
                       (Candidate.title a) (Candidate.url a) (Candidate.source a)
                       (Candidate.content a) (Candidate.summary a)
                       (Candidate.keywords a) (Candidate.published_at a)
                       (clock db) (Candidate.relevance_score a)])
             (next_request_id db) (next_log_id db) (S (next_article_id db))
             (clock db + 1) (status_history db))
    end.
Proof.
  cbn [save_articles]. unfold bind, external, create_article, utcnow, raise, ret.
  by destruct (fault env WorkflowStep.RESULT_PERSISTENCE).
Qed.

Lemma save_articles_frame (env : Env) (request_id : nat) (todo : list Candidate.t)
    (saved : list Article.t) (db : DB) :
  log_frame db (snd (save_articles env request_id todo saved db)).
Proof.
  revert saved db. induction todo as [|a todo IH]; intros saved db; [done|].
  rewrite save_articles_cons.
  destruct (fault env WorkflowStep.RESULT_PERSISTENCE) as [e|]; [done|].
  match goal with |- log_frame db (snd (save_articles _ _ _ ?sv ?d)) =>
    destruct (IH sv d) as ((? & ? & ?) & ? & ?)
  end.
  by repeat split; etrans.
Qed.

Lemma save_articles_outcome (env : Env) (request_id : nat) (todo : list Candidate.t)
    (saved : list Article.t) (db : DB) :
  match persistence_error env todo with
  | Some e => fst (save_articles env request_id todo saved db) = Raise e
  | None => exists l, fst (save_articles env request_id todo saved db) = Return l /\
                      length l = (length saved + length todo)%nat
  end.
Proof.
  destruct todo as [|a todo]; [by exists saved; rewrite Nat.add_0_r|].
  unfold persistence_error.
  destruct (fault env WorkflowStep.RESULT_PERSISTENCE) as [e|] eqn:Efault.
  - by rewrite save_articles_cons, Efault.
  - revert a saved db. induction todo as [|b todo IH]; intros a saved db;
      rewrite save_articles_cons, Efault.
    + eexists. split; [done|]. rewrite length_app. simpl. lia.
    + match goal with |- context [save_articles _ _ _ ?sv ?d] =>
        destruct (IH b sv d) as (l & Hl & Hlen)
      end.
      exists l. split; [done|]. rewrite Hlen, length_app. simpl. lia.
Qed.

Lemma execute_result_persistence_run (env : Env) (request_id : nat)
    (processed_data : Processed.t) (db : DB) :
  fresh_log_ids db ->
  exists db',
    execute_result_persistence env request_id processed_data db
    = (match persistence_error env (Processed.top_articles processed_data) with
       | Some e => Raise e
       | None =>
           Return (Persisted.mk (length (Processed.top_articles processed_data))
                     (Processed.keywords processed_data)
                     (Processed.summary processed_data)
                     (Processed.sources processed_data)
                     (Processed.total_articles_processed processed_data))
       end, db') /\
    ran request_id
        [(WorkflowStep.RESULT_PERSISTENCE,
          match persistence_error env (Processed.top_articles processed_data) with
          | Some _ => "failed" | None => "completed" end)]
        db db'.
Proof.
  intros Hfresh.
  unfold execute_result_persistence, log_failed, try_except.
  unfold bind at 1. unfold create_workflow_log, bind at 1, utcnow. cbn.
  set (log := WorkflowLog.mk _ _ _ _ _ _ _ _ _).
  set (db1 := mkDB _ _ _ _ _ _ _ _).
  pose proof (save_articles_frame env request_id
                (Processed.top_articles processed_data) [] db1) as Hframe.
  pose proof (save_articles_outcome env request_id
                (Processed.top_articles processed_data) [] db1) as Hout.
  unfold bind at 1.
  destruct (save_articles env request_id (Processed.top_articles processed_data) [] db1)
    as [out db2].
  simpl in Hframe, Hout. destruct Hframe as ((Hr & Hh & Hn) & Hlogs & Hnext).
  change (research_requests db1) with (research_requests db) in Hr.
  change (status_history db1) with (status_history db) in Hh.
  change (next_request_id db1) with (next_request_id db) in Hn.
  change (workflow_logs db1) with (workflow_logs db ++ [log]) in Hlogs.
  change (next_log_id db1) with (S (next_log_id db)) in Hnext.
  assert (Forall (fun x => (WorkflowLog.id x < WorkflowLog.id log)%nat) (workflow_logs db))
    as Hrows by exact Hfresh.
  destruct (persistence_error env (Processed.top_articles processed_data)) as [e|].
  - rewrite Hout. unfold bind, raise.
    match goal with |- context [update_workflow_log _ ?st ?m ?d db2] =>
      destruct (update_last_log db2 (workflow_logs db) log st m d Hlogs Hrows)
        as (log' & db' & Hrun & Hl' & Hid & Hrid & Hstep & Hst & (Hr' & Hh' & Hn') & Hnext')
    end.
    change (WorkflowLog.id log) with (next_log_id db) in Hrun. rewrite Hrun.
    exists db'. split; [reflexivity|].
    split; [repeat split; congruence|]. split.
    + unfold fresh_log_ids. rewrite Hl', Hnext', Hnext. cbn.
      apply Forall_app. split; [eapply Forall_impl; [exact Hfresh | cbn; lia]|].
      apply Forall_singleton. rewrite Hid.
      change (WorkflowLog.id log) with (next_log_id db). lia.
    + exists [log']. split; [done|]. split; [by unfold trail; cbn; rewrite Hstep, Hst|].
      repeat constructor. by rewrite Hrid.
  - destruct Hout as (l & -> & Hlen).
    unfold bind, ret.
    match goal with |- context [update_workflow_log _ ?st ?m ?d db2] =>
      destruct (update_last_log db2 (workflow_logs db) log st m d Hlogs Hrows)
        as (log' & db' & Hrun & Hl' & Hid & Hrid & Hstep & Hst & (Hr' & Hh' & Hn') & Hnext')
    end.
    change (WorkflowLog.id log) with (next_log_id db) in Hrun. rewrite Hrun.
    exists db'. rewrite Hlen. split; [reflexivity|].
    split; [repeat split; congruence|]. split.
    + unfold fresh_log_ids. rewrite Hl', Hnext', Hnext. cbn.
      apply Forall_app. split; [eapply Forall_impl; [exact Hfresh | cbn; lia]|].
      apply Forall_singleton. rewrite Hid.
      change (WorkflowLog.id log) with (next_log_id db). lia.
    + exists [log']. split; [done|]. split; [by unfold trail; cbn; rewrite Hstep, Hst|].
      repeat constructor. by rewrite Hrid.
Qed.

Lemma execute_return_results_run (env : Env) (request_id : nat)
    (persisted_data : Persisted.t) (workflow_start : Z) (db : DB) :
  fresh_log_ids db ->
  exists db',
    ran request_id
        [(WorkflowStep.RETURN_RESULTS,
          match results_error env (research_requests db !! request_id) with
          | Some _ => "failed" | None => "completed" end)]
        db db' /\
    match results_error env (research_requests db !! request_id) with
    | Some e =>
        execute_return_results env request_id persisted_data workflow_start db
        = (Raise e, db')
    | None =>
        exists final_results,
          execute_return_results env request_id persisted_data workflow_start db
          = (Return final_results, db') /\
          Json.truthy (Some final_results) = true /\
          Json.get "topic" final_results
            = JStr <$> (ResearchRequest.topic <$> research_requests db !! request_id) /\
          Json.get "total_articles_found" final_results
            = Some (Json.nat (Persisted.total_articles_found persisted_data))
    end.
Proof.
  intros Hfresh.
  unfold execute_return_results, results_error, log_failed, create_workflow_log,
    update_workflow_log, find_log, try_except, external,
    get_research_request_detail, get_articles, detail_of,
    bind, gets, modify, raise, ret, utcnow.
  destruct (fault env WorkflowStep.RETURN_RESULTS) as [e|];
    [|destruct (research_requests db !! request_id) as [r|] eqn:Er];
    stage_eval Hfresh; rewrite ?Er; stage_eval Hfresh.
  - eexists. apply and_comm. split; [reflexivity | ran_solve Hfresh].
  - eexists. apply and_comm.
    split; [eexists; split; [reflexivity | done] | ran_solve Hfresh].
  - eexists. apply and_comm. split; [reflexivity | ran_solve Hfresh].
Qed.

Lemma run_stages_run (env : Env) (request_id : nat) (topic : string)
    (workflow_start : Z) (db : DB) :
  fresh_log_ids db ->
  exists out db',
    run_stages env request_id topic workflow_start db = (out, db') /\
    match first_failure env topic (research_requests db !! request_id) with
    | Some (k, e) => out = Raise e /\ ran request_id (failed_trail k) db db'
    | None =>
        exists final_results,
          out = Return final_results /\
          ran request_id completed_trail db db' /\
          Json.truthy (Some final_results) = true /\
          Json.get "topic" final_results
            = JStr <$> (ResearchRequest.topic <$> research_requests db !! request_id) /\
          Json.get "total_articles_found" final_results
            = Some (Json.nat (length (ExternalAPIService.gather_research_data env topic)))
    end.
Proof.
  intros Hfresh. unfold run_stages, first_failure.
  destruct (execute_input_parsing_run request_id topic db Hfresh) as (db1 & H1 & Hran1).
  unfold bind at 1. rewrite H1.
  destruct (validation_error topic) as [e|]; [by eexists _, db1|]. cbv beta iota.
  pose proof Hran1 as (_ & Hfresh1 & _).
  destruct (execute_data_gathering_run env request_id topic db1 Hfresh1)
    as (db2 & H2 & Hran2).
  unfold bind at 1. rewrite H2.
  pose proof (ran_compose _ _ _ _ _ _ Hran1 Hran2) as Hran12.
  destruct (fault env WorkflowStep.DATA_GATHERING) as [e|]; [by eexists _, db2|].
  cbv beta iota.
  pose proof Hran2 as (_ & Hfresh2 & _).
  destruct (execute_processing_run request_id
              (ExternalAPIService.gather_research_data env topic) db2 Hfresh2)
    as (db3 & H3 & Hran3).
  unfold bind at 1. rewrite H3. cbv beta iota.
  pose proof (ran_compose _ _ _ _ _ _ Hran12 Hran3) as Hran123.
  pose proof Hran3 as (_ & Hfresh3 & _).
  unfold bind at 1.
  match goal with |- context [execute_result_persistence env request_id ?pd db3] =>
    destruct (execute_result_persistence_run env request_id pd db3 Hfresh3)
      as (db4 & H4 & Hran4)
  end.
  rewrite H4. cbn [Processed.top_articles] in *.
  pose proof (ran_compose _ _ _ _ _ _ Hran123 Hran4) as Hran1234.
  destruct (persistence_error env _) as [e|]; [by eexists _, db4|]. cbv beta iota.
  pose proof Hran4 as (_ & Hfresh4 & _).
  match goal with |- context [execute_return_results env request_id ?pd ?ws db4] =>
    destruct (execute_return_results_run env request_id pd ws db4 Hfresh4)
      as (db5 & Hran5 & H5)
  end.
  pose proof (ran_compose _ _ _ _ _ _ Hran1234 Hran5) as Hran12345.
  assert (research_requests db4 = research_requests db) as Hreq
    by (by destruct Hran1234 as ((? & _) & _)).
  rewrite Hreq in *.
  destruct (results_error env (research_requests db !! request_id)) as [e|].
  - rewrite H5. by eexists _, db5.
  - destruct H5 as (final & -> & Htruthy & Htopic & Htotal).
    eexists _, db5. split; [reflexivity|]. by exists final.
Qed.
End Stages.

(** ** The workflow *)

Section WorkflowRun.
Import ResearchService Workflow.

Lemma update_status_run (request_id : nat) (status : ResearchStatus.t)
    (results : option json) (error_message : option string)
    (db : DB) (r : ResearchRequest.t) :
  research_requests db !! request_id = Some r ->
  exists r' db',
    update_status request_id status results error_message db = (Return (Some r'), db') /\
    research_requests db' = <[request_id := r']> (research_requests db) /\
    status_history db' = status_history db ++ [(request_id, status)] /\
    workflow_logs db' = workflow_logs db /\
    next_log_id db' = next_log_id db /\
    next_request_id db' = next_request_id db /\
    ResearchRequest.status r' = status /\
    ResearchRequest.topic r' = ResearchRequest.topic r /\
    ResearchRequest.id r' = ResearchRequest.id r /\
    ResearchRequest.results r'
      = (if Json.truthy results then results else ResearchRequest.results r) /\
    ResearchRequest.error_message r'
      = (if truthy_str error_message then error_message
         else ResearchRequest.error_message r) /\
    ResearchRequest.completed_at r'
      = (if decide (status = ResearchStatus.COMPLETED) then Some (clock db)
         else ResearchRequest.completed_at r).
Proof.
  intros Hr.
  unfold update_status, get_research_request, bind, gets, modify, ret, utcnow.
  rewrite Hr. destruct (decide (status = ResearchStatus.COMPLETED));
    cbn; eexists _, _; (split; [reflexivity|]); cbn; by repeat split.
Qed.

Lemma update_status_absent (request_id : nat) (status : ResearchStatus.t)
    (results : option json) (error_message : option string) (db : DB) :
  research_requests db !! request_id = None ->
  update_status request_id status results error_message db = (Return None, db).
Proof.
  intros Hr. unfold update_status, get_research_request, bind, gets, ret.
  by rewrite Hr.
Qed.

Lemma create_workflow_log_run (request_id : nat) (step : WorkflowStep.t)
    (status : string) (message : option string) (details : option json) (db : DB) :
  exists log db',
    create_workflow_log request_id step status message details db = (Return log, db') /\
    workflow_logs db' = workflow_logs db ++ [log] /\
    next_log_id db' = S (next_log_id db) /\
    same_header db db' /\
    WorkflowLog.id log = next_log_id db /\
    WorkflowLog.research_request_id log = request_id /\
    WorkflowLog.step log = step /\
    WorkflowLog.status log = status /\
    WorkflowLog.message log = message.
Proof.
  unfold create_workflow_log, bind, utcnow. cbn. by eexists _, _.
Qed.

Lemma first_failure_found (env : Env) (topic : string) (r r' : ResearchRequest.t) :
  first_failure env topic (Some r) = first_failure env topic (Some r').
Proof. done. Qed.

(** What one run of the workflow does to a request that is in the store. *)
Lemma start_research_workflow_run (env : Env) (request_id : nat) (db : DB)
    (r : ResearchRequest.t) :
  fresh_log_ids db ->
  research_requests db !! request_id = Some r ->
  exists out db' r' entries,
    start_research_workflow env request_id db = (out, db') /\
    research_requests db' = <[request_id := r']> (research_requests db) /\
    next_request_id db' = next_request_id db /\
    fresh_log_ids db' /\
    workflow_logs db' = workflow_logs db ++ entries /\
    Forall (fun l => WorkflowLog.research_request_id l = request_id) entries /\
    ResearchRequest.topic r' = ResearchRequest.topic r /\
    match first_failure env (ResearchRequest.topic r) (Some r) with
    | Some (k, e) =>
        out = Raise e /\
        (exists stage_entries failure,
           entries = stage_entries ++ [failure] /\
           trail stage_entries = failed_trail k /\
           WorkflowLog.step failure = WorkflowStep.RETURN_RESULTS /\
           WorkflowLog.status failure = "failed" /\
           WorkflowLog.message failure = Some ("Workflow failed: " +:+ str e)) /\
        status_history db'
          = status_history db ++ [(request_id, ResearchStatus.PROCESSING);
                                  (request_id, ResearchStatus.FAILED)] /\
        ResearchRequest.status r' = ResearchStatus.FAILED /\
        ResearchRequest.completed_at r' = ResearchRequest.completed_at r /\
        ResearchRequest.results r' = ResearchRequest.results r /\
        ResearchRequest.error_message r'
          = (if PyStr.truthy (str e) then Some (str e)
             else ResearchRequest.error_message r)
    | None =>
        exists final_results,
          out = Return final_results /\
          trail entries = completed_trail /\
          status_history db'
            = status_history db ++ [(request_id, ResearchStatus.PROCESSING);
                                    (request_id, ResearchStatus.COMPLETED)] /\
          ResearchRequest.status r' = ResearchStatus.COMPLETED /\
          is_Some (ResearchRequest.completed_at r') /\
          ResearchRequest.results r' = Some final_results /\
          ResearchRequest.error_message r' = ResearchRequest.error_message r /\
          Json.get "topic" final_results = Some (JStr (ResearchRequest.topic r)) /\
          Json.get "total_articles_found" final_results
            = Some (Json.nat (length (ExternalAPIService.gather_research_data env
                                        (ResearchRequest.topic r))))
    end.
Proof.
  intros Hfresh Hr.
  unfold start_research_workflow, try_except, workflow_body.
  unfold bind at 1. unfold get_research_request, gets. rewrite Hr.
  destruct (update_status_run request_id ResearchStatus.PROCESSING None None db r Hr)
    as (rp & dbp & Hup & Hreq_p & Hhist_p & Hlogs_p & Hnl_p & Hnr_p
        & Hst_p & Htopic_p & _ & Hres_p & Herr_p & Hcomp_p).
  unfold bind at 1. rewrite Hup. unfold bind at 1, utcnow. cbv beta iota.
  set (dbs := mkDB _ _ _ _ _ _ _ _).
  assert (fresh_log_ids dbs) as Hfresh_s.
  { unfold fresh_log_ids, dbs. cbn. by rewrite Hlogs_p, Hnl_p. }
  destruct (run_stages_run env request_id (ResearchRequest.topic r) (clock dbp)
              dbs Hfresh_s) as (out & db1 & Hrun & Hcase).
  unfold bind at 1. rewrite Hrun.
  change (research_requests dbs) with (research_requests dbp) in Hcase.
  rewrite Hreq_p, lookup_insert_eq in Hcase.
  rewrite (first_failure_found env _ r rp).
  assert (forall steps, ran request_id steps dbs db1 ->
            research_requests db1 = <[request_id := rp]> (research_requests db) /\
            status_history db1 = status_history db ++ [(request_id, ResearchStatus.PROCESSING)] /\
            next_request_id db1 = next_request_id db /\
            fresh_log_ids db1 /\
            exists entries, workflow_logs db1 = workflow_logs db ++ entries /\
                            trail entries = steps /\
                            Forall (fun l => WorkflowLog.research_request_id l = request_id)
                                   entries) as Hran.
  { intros steps ((Hr1 & Hh1 & Hn1) & Hf1 & es & Hl1 & Ht1 & Hrid1).
    cbn in Hr1, Hh1, Hn1, Hl1.
    rewrite Hr1, Hreq_p, Hh1, Hhist_p, Hn1, Hnr_p, Hl1, Hlogs_p.
    repeat split; try done. by exists es. }
  destruct (first_failure env (ResearchRequest.topic r) (Some rp)) as [[k e]|].
  - destruct Hcase as (-> & Hcase).
    apply Hran in Hcase as (Hr1 & Hh1 & Hn1 & Hf1 & es & Hl1 & Ht1 & Hrid1).
    unfold workflow_failed, raise.
    destruct (create_workflow_log_run request_id WorkflowStep.RETURN_RESULTS "failed"
                (Some ("Workflow failed: " +:+ str e)) None db1)
      as (log & db2 & Hcreate & Hl2 & Hnl2 & (Hr2 & Hh2 & Hn2) & Hid & Hrid & Hstep & Hst & Hmsg).
    unfold bind at 1. rewrite Hcreate.
    assert (research_requests db2 !! request_id = Some rp) as Hr2'
      by (by rewrite Hr2, Hr1, lookup_insert_eq).
    destruct (update_status_run request_id ResearchStatus.FAILED None (Some (str e))
                db2 rp Hr2')
      as (r' & db' & Hup' & Hreq' & Hhist' & Hlogs' & Hnl' & Hnr'
          & Hst' & Htopic' & _ & Hres' & Herr' & Hcomp').
    unfold bind at 1. rewrite Hup'.
    exists (Raise e), db', r', (es ++ [log]).
    split; [done|].
    split; [by rewrite Hreq', Hr2, Hr1, insert_insert_eq|].
    split; [congruence|]. split.
    { unfold fresh_log_ids. rewrite Hlogs', Hnl', Hl2, Hnl2.
      apply Forall_app. split; [eapply Forall_impl; [exact Hf1 | cbn; lia]|].
      apply Forall_singleton. lia. }
    split; [by rewrite Hlogs', Hl2, Hl1, app_assoc|].
    split; [apply Forall_app; split; [done | by apply Forall_singleton]|].
    split; [congruence|].
    split; [done|]. split; [by exists es, log|].
    split; [by rewrite Hhist', Hh2, Hh1, <- app_assoc|].
    split; [done|]. split; [by rewrite Hcomp', Hcomp_p|].
    split; [by rewrite Hres', Hres_p|]. by rewrite Herr', Herr_p.
  - destruct Hcase as (final & -> & Hcase & Htruthy & Htopic & Htotal).
    apply Hran in Hcase as (Hr1 & Hh1 & Hn1 & Hf1 & es & Hl1 & Ht1 & Hrid1).
    assert (research_requests db1 !! request_id = Some rp) as Hr1'
      by (by rewrite Hr1, lookup_insert_eq).
    destruct (update_status_run request_id ResearchStatus.COMPLETED (Some final) None
                db1 rp Hr1')
      as (r' & db' & Hup' & Hreq' & Hhist' & Hlogs' & Hnl' & Hnr'
          & Hst' & Htopic' & _ & Hres' & Herr' & Hcomp').
    unfold bind at 1. rewrite Hup'. cbv beta iota. unfold ret.
    exists (Return final), db', r', es.
    split; [done|].
    split; [by rewrite Hreq', Hr1, insert_insert_eq|].
    split; [congruence|].
    split; [unfold fresh_log_ids; by rewrite Hlogs', Hnl'|].
    split; [by rewrite Hlogs'|]. split; [done|]. split; [congruence|].
    exists final. split; [done|]. split; [done|].
    split; [by rewrite Hhist', Hh1, <- app_assoc|].
    split; [done|]. split; [by rewrite Hcomp'|].
    split; [by rewrite Hres', Htruthy|].
    split; [by rewrite Herr', Herr_p|].
    split; [|done]. rewrite Htopic. cbn. by rewrite Htopic_p.
Qed.
End WorkflowRun.












(** ** Provider failure *)





(** ** The life cycle of a request *)

Section Lifecycle.
Import ResearchService Workflow.



(** The workflow of a request that is not in the store: it fails before
    any stage, and only the failure entry is written. *)
Lemma start_research_workflow_absent (env : Env) (request_id : nat) (db : DB) :
  fresh_log_ids db ->
  research_requests db !! request_id = None ->
  exists out db',
    start_research_workflow env request_id db = (out, db') /\
    same_header db db' /\ fresh_log_ids db'.
Proof.
  intros Hfresh Hr.
  unfold start_research_workflow, try_except, workflow_body, workflow_failed.
  unfold bind at 1. unfold get_research_request, gets. rewrite Hr.
  unfold raise at 1. cbv beta iota.
  set (e := Exception _).
  destruct (create_workflow_log_run request_id WorkflowStep.RETURN_RESULTS "failed"
              (Some ("Workflow failed: " +:+ str e)) None db)
    as (log & db1 & Hcreate & Hl & Hnl & (Hr1 & Hh1 & Hn1) & Hid & _).
  unfold bind at 1. rewrite Hcreate.
  unfold bind at 1. rewrite update_status_absent by (by rewrite Hr1).
  eexists _, db1. split; [reflexivity|]. split; [done|].
  unfold fresh_log_ids. rewrite Hl, Hnl.
  apply Forall_app. split; [eapply Forall_impl; [exact Hfresh | cbn; lia]|].
  apply Forall_singleton. lia.
Qed.

Lemma submit_run (topic task_id : string) (db : DB) :
  exists r,
    let db' := run_op (Submit topic task_id) db in
    ResearchRequest.status r = ResearchStatus.PENDING /\
    research_requests db' = <[next_request_id db := r]> (research_requests db) /\
    next_request_id db' = S (next_request_id db) /\
    status_history db'
      = status_history db ++ [(next_request_id db, ResearchStatus.PENDING)] /\
    workflow_logs db' = workflow_logs db /\
    next_log_id db' = next_log_id db.
Proof.
  unfold run_op, Routes.create_research_request, Routes.route,
    create_research_request, update_task_id, get_research_request,
    bind, gets, modify, ret, utcnow.
  cbn. rewrite lookup_insert_eq. cbn. eexists. rewrite insert_insert_eq.
  by repeat split.
Qed.


Lemma Forall_list_filter {A} (P : A -> Prop) (f : A -> bool) (l : list A) :
  Forall P l -> Forall P (List.filter f l).
Proof.
  induction 1 as [|x l Hx _ IH]; simpl; [done|]. destruct (f x); [by constructor | done].
Qed.

Lemma delete_run (request_id : nat) (db : DB) :
  let db' := run_op (Delete request_id) db in
  (forall i r, research_requests db' !! i = Some r -> research_requests db !! i = Some r) /\
  next_request_id db' = next_request_id db /\
  status_history db' = status_history db /\
  (fresh_log_ids db -> fresh_log_ids db').
Proof.
  unfold run_op, Routes.delete_research_request, Routes.route,
    delete_research_request, get_research_request, bind, gets, modify, ret.
  cbn. destruct (research_requests db !! request_id) eqn:E; cbn; rewrite ?E; cbn.
  - repeat split; try done.
    + by intros i r [_ ?]%lookup_delete_Some.
    + apply Forall_list_filter.
  - done.
Qed.






End Lifecycle.




(** * Further properties *)

(** ** Relations that every step keeps *)

Section Keeps.
Context (R : DB -> DB -> Prop) `{!Reflexive R, !Transitive R}.

Lemma keeps_ret {A} (a : A) : keeps R (ret a).
Proof. intros db. simpl. reflexivity. Qed.

Lemma keeps_raise {A} (e : exn) : keeps R (raise (A := A) e).
Proof. intros db. simpl. reflexivity. Qed.

Lemma keeps_gets {A} (f : DB -> A) : keeps R (gets f).
Proof. intros db. simpl. reflexivity. Qed.

Lemma keeps_external (fault : option exn) : keeps R (external fault).
Proof. destruct fault; [apply keeps_raise | apply keeps_ret]. Qed.

Lemma keeps_bind {A B} (m : M A) (k : A -> M B) :
  keeps R m -> (forall a, keeps R (k a)) -> keeps R (bind m k).
Proof.
  intros Hm Hk db. unfold bind. specialize (Hm db).
  destruct (m db) as [[a|e] db1]; simpl in *; [|done].
  etrans; [exact Hm | apply Hk].
Qed.

Lemma keeps_try_except {A} (body : M A) (handler : exn -> M A) :
  keeps R body -> (forall e, keeps R (handler e)) -> keeps R (try_except body handler).
Proof.
  intros Hm Hk db. unfold try_except. specialize (Hm db).
  destruct (body db) as [[a|e] db1]; simpl in *; [done|].
  etrans; [exact Hm | apply Hk].
Qed.

Lemma keeps_try_finally {A} (body : M A) (cleanup : M unit) :
  keeps R body -> keeps R cleanup -> keeps R (try_finally body cleanup).
Proof.
  intros Hm Hk db. unfold try_finally. specialize (Hm db).
  destruct (body db) as [r db1]. specialize (Hk db1).
  destruct (cleanup db1) as [[[]|e] db2]; simpl in *; by etrans.
Qed.
End Keeps.

(** ** What the workflow leaves alone *)

#[global] Instance same_identity_refl : Reflexive same_identity.
Proof. by intros r. Qed.

#[global] Instance same_identity_trans : Transitive same_identity.
Proof.
  intros r1 r2 r3 (? & ? & ? & ?) (? & ? & ? & ?).
  repeat split; congruence.
Qed.

#[global] Instance workflow_frame_refl (request_id : nat) :
  Reflexive (workflow_frame request_id).
Proof.
  intros db. split; [done|]. split; [by destruct (_ !! _); constructor|].
  split; [|done]. exists []. by rewrite app_nil_r.
Qed.

#[global] Instance workflow_frame_trans (request_id : nat) :
  Transitive (workflow_frame request_id).
Proof.
  intros db1 db2 db3 (Ho1 & Hr1 & (rows1 & Ha1 & Hf1) & Hn1)
                     (Ho2 & Hr2 & (rows2 & Ha2 & Hf2) & Hn2).
  split; [intros j Hj; by rewrite Ho2, Ho1|].
  split; [by etrans|].
  split; [|congruence].
  exists (rows1 ++ rows2). rewrite Ha2, Ha1, <- app_assoc.
  split; [done | by apply Forall_app].
Qed.

Section Frame.
Import ResearchService Workflow.
Context (request_id : nat).

Lemma workflow_frame_same (db db' : DB) :
  research_requests db' = research_requests db ->
  articles db' = articles db ->
  next_request_id db' = next_request_id db ->
  workflow_frame request_id db db'.
Proof.
  intros Hr Ha Hn. split; [intros; by rewrite Hr|]. rewrite Hr.
  split; [reflexivity|]. split; [|done]. exists []. by rewrite app_nil_r.
Qed.

Lemma frame_utcnow : keeps (workflow_frame request_id) utcnow.
Proof. intros db. by apply workflow_frame_same. Qed.

Lemma frame_update_status (status : ResearchStatus.t) (results : option json)
    (error_message : option string) :
  keeps (workflow_frame request_id) (update_status request_id status results error_message).
Proof.
  intros db. unfold update_status, get_research_request, bind, gets, modify, ret, utcnow,
    record_status, set_requests.
  destruct (research_requests db !! request_id) as [r|] eqn:Hr;
    [|by apply workflow_frame_same].
  destruct (decide (status = ResearchStatus.COMPLETED)); cbn.
  all: split; [intros j Hj; cbn; by rewrite lookup_insert_ne|].
  all: split; [cbn; rewrite Hr, lookup_insert_eq; by constructor|].
  all: split; [|done]; exists []; cbn; by rewrite app_nil_r.
Qed.

Lemma frame_create_workflow_log (step : WorkflowStep.t) (status : string)
    (message : option string) (details : option json) :
  keeps (workflow_frame request_id)
        (create_workflow_log request_id step status message details).
Proof. intros db. by apply workflow_frame_same. Qed.

Lemma frame_update_workflow_log (log_id : nat) (status : string)
    (message : option string) (details : option json) :
  keeps (workflow_frame request_id) (update_workflow_log log_id status message details).
Proof.
  intros db.
  destruct (update_workflow_log_returns log_id status message details db)
    as (o & db' & -> & Hr & _ & Hn & _ & Ha).
  by apply workflow_frame_same.
Qed.

Lemma frame_create_article (title url source content summary : string)
    (keywords : list string) (published_at : option Z) (relevance_score : Z) :
  keeps (workflow_frame request_id)
        (create_article request_id title url source content summary keywords
                        published_at relevance_score).
Proof.
  intros db. unfold create_article, bind, utcnow. cbn.
  split; [done|]. split; [reflexivity|]. split; [|done].
  eexists [_]. split; [reflexivity|]. by apply Forall_singleton.
Qed.

Lemma frame_log_failed {A} (log : WorkflowLog.t) (what : string) (e : exn) :
  keeps (workflow_frame request_id) (log_failed log what (A := A) e).
Proof.
  apply keeps_bind; [apply _ | apply frame_update_workflow_log |].
  intros _. apply keeps_raise, _.
Qed.

Ltac frame_auto :=
  repeat first
    [ apply frame_utcnow | apply frame_update_status | apply frame_create_workflow_log
    | apply frame_update_workflow_log | apply frame_create_article | apply frame_log_failed
    | apply keeps_ret | apply keeps_raise | apply keeps_gets | apply keeps_external
    | apply keeps_bind | apply keeps_try_except | apply keeps_try_finally
    | apply _
    | match goal with
      | |- forall _, _ => intros ?
      | |- keeps _ (if ?b then _ else _) => destruct b
      | |- keeps _ (match ?x with _ => _ end) => destruct x
      end ].

Lemma frame_execute_input_parsing (topic : string) :
  keeps (workflow_frame request_id) (execute_input_parsing request_id topic).
Proof. unfold execute_input_parsing. frame_auto. Qed.

Lemma frame_execute_data_gathering (env : Env) (topic : string) :
  keeps (workflow_frame request_id) (execute_data_gathering env request_id topic).
Proof. unfold execute_data_gathering. frame_auto. Qed.

Lemma frame_execute_processing (articles : list Candidate.t) :
  keeps (workflow_frame request_id) (execute_processing request_id articles).
Proof. unfold execute_processing. frame_auto. Qed.

Lemma frame_save_articles (env : Env) (todo : list Candidate.t) (saved : list Article.t) :
  keeps (workflow_frame request_id) (save_articles env request_id todo saved).
Proof.
  revert saved. induction todo as [|a todo IH]; intros saved; cbn [save_articles];
    frame_auto. apply IH.
Qed.

Lemma frame_execute_result_persistence (env : Env) (processed_data : Processed.t) :
  keeps (workflow_frame request_id)
        (execute_result_persistence env request_id processed_data).
Proof.
  unfold execute_result_persistence. frame_auto; try apply frame_save_articles; frame_auto.
Qed.

Lemma frame_execute_return_results (env : Env) (persisted_data : Persisted.t)
    (workflow_start : Z) :
  keeps (workflow_frame request_id)
        (execute_return_results env request_id persisted_data workflow_start).
Proof.
  unfold execute_return_results, get_research_request_detail, get_articles. frame_auto.
Qed.

Lemma frame_start_research_workflow (env : Env) :
  keeps (workflow_frame request_id) (start_research_workflow env request_id).
Proof.
  unfold start_research_workflow, workflow_body, workflow_failed, run_stages,
    get_research_request.
  frame_auto. apply frame_save_articles.
Qed.
End Frame.

(** X1. Whatever the providers reply, whatever fails and whatever the store
    holds, a run of the workflow for one request leaves the rows of all
    other requests as they were, neither creates nor deletes a request,
    leaves the id, the topic, the task id and the creation time of its own
    request as they were, gives out no request id, and changes or removes no
    article: the article table only grows, at its end, by articles of that
    request. *)
Theorem workflow_touches_own_request_only (env : Env) (request_id : nat) (db : DB) :
  let db' := snd (Workflow.start_research_workflow env request_id db) in
  (forall other, other <> request_id ->
     research_requests db' !! other = research_requests db !! other) /\
  (research_requests db !! request_id = None ->
   research_requests db' !! request_id = None) /\
  (forall r, research_requests db !! request_id = Some r ->
     exists r',
       research_requests db' !! request_id = Some r' /\
       ResearchRequest.id r' = ResearchRequest.id r /\
       ResearchRequest.topic r' = ResearchRequest.topic r /\
       ResearchRequest.task_id r' = ResearchRequest.task_id r /\
       ResearchRequest.created_at r' = ResearchRequest.created_at r) /\
  (exists rows,
     articles db' = articles db ++ rows /\
     Forall (fun a => Article.research_request_id a = request_id) rows) /\
  next_request_id db' = next_request_id db.
Proof.
  intros db'.
  destruct (frame_start_research_workflow request_id env db) as (Hother & Hown & Hrows & Hnext).
  fold db' in Hother, Hown, Hrows, Hnext.
  split; [done|]. split; [|split; [|done]].
  - intros Hr. rewrite Hr in Hown. by inversion Hown.
  - intros r Hr. rewrite Hr in Hown. inversion Hown as [? r' Hid|]; subst.
    by exists r'.
Qed.

(** ** The articles that a run stores *)

Section After.
Context (R : DB -> DB -> Prop) `{!Reflexive R, !Transitive R}.


End After.

#[global] Instance article_frame_refl : Reflexive article_frame.
Proof. by intros db. Qed.

#[global] Instance article_frame_trans : Transitive article_frame.
Proof. intros db1 db2 db3 [? ?] [? ?]. split; congruence. Qed.

Section ArticleFrame.
Import ResearchService Workflow.



















End ArticleFrame.





(** ** Invariants of the request table *)

Section RequestTable.
Import ResearchService Workflow.

(** The row that a submission creates. *)
Lemma submit_row (topic task_id : string) (db : DB) :
  research_requests (run_op (Submit topic task_id) db)
  = <[next_request_id db :=
        ResearchRequest.mk (next_request_id db) topic ResearchStatus.PENDING
          (Some task_id) (clock db) (Some (clock db + 1)) None None None]>
      (research_requests db).
Proof.
  unfold run_op, Routes.create_research_request, Routes.route,
    create_research_request, update_task_id, get_research_request,
    bind, gets, modify, ret, utcnow.
  cbn. rewrite lookup_insert_eq. cbn. by rewrite insert_insert_eq.
Qed.

Lemma well_formed_init : well_formed empty_db.
Proof. split; [by constructor | by intros i r]. Qed.

Lemma well_formed_op (o : op) (db : DB) : well_formed db -> well_formed (run_op o db).
Proof.
  intros [Hfresh Hrows]. destruct o as [topic task_id|env request_id|request_id].
  - destruct (submit_run topic task_id db) as (_ & _ & _ & Hnext & _ & Hlogs & Hnl).
    cbn zeta in Hnext, Hlogs, Hnl.
    split; [unfold fresh_log_ids; by rewrite Hlogs, Hnl|].
    intros i r. rewrite submit_row, Hnext.
    destruct (decide (i = next_request_id db)) as [->|Hne].
    + rewrite lookup_insert_eq. intros [= <-].
      split; [lia|]. split; [done|]. split; [done|]. by split.
    + rewrite lookup_insert_ne by done. intros Hr.
      destruct (Hrows i r Hr) as (? & Hrest). split; [lia | exact Hrest].
  - unfold run_op.
    destruct (research_requests db !! request_id) as [r|] eqn:Hr.
    + destruct (start_research_workflow_run env request_id db r Hfresh Hr)
        as (out & db' & r' & entries & Hrun & Hreq & Hnext & Hfresh' & _ & _ & _ & Hcase).
      pose proof (frame_start_research_workflow request_id env db) as (_ & Hown & _).
      rewrite Hrun in Hown |- *. cbn [snd] in Hown |- *.
      rewrite Hr, Hreq, lookup_insert_eq in Hown.
      inversion Hown as [? ? (Hid & _)|]; subst.
      split; [done|]. intros i ri. rewrite Hreq, Hnext.
      destruct (decide (i = request_id)) as [->|Hne].
      * rewrite lookup_insert_eq. intros [= <-].
        destruct (Hrows request_id r Hr) as (? & ? & _).
        split; [done|]. split; [congruence|].
        destruct (first_failure env (ResearchRequest.topic r) (Some r)) as [[k e]|].
        -- destruct Hcase as (_ & _ & _ & Hst & _).
           split; [by rewrite Hst|]. split; by rewrite Hst.
        -- destruct Hcase as (final & _ & _ & _ & Hst & Hcomp & Hres & _).
           split; [by rewrite Hst|]. split; [|by rewrite Hst].
           intros _. by rewrite Hres.
      * rewrite lookup_insert_ne by done. apply Hrows.
    + destruct (start_research_workflow_absent env request_id db Hfresh Hr)
        as (out & db' & -> & (Hreq & _ & Hnext) & Hfresh').
      cbn [snd]. split; [done|]. intros i ri. rewrite Hreq, Hnext. apply Hrows.
  - destruct (delete_run request_id db) as (Hreq & Hnext & _ & Hfresh').
    cbn zeta in Hreq, Hnext, Hfresh'.
    split; [auto|]. intros i r Hr. rewrite Hnext. apply Hrows, Hreq, Hr.
Qed.

Lemma well_formed_run (ops : list op) (db : DB) :
  well_formed db -> well_formed (run_ops ops db).
Proof.
  revert db. induction ops as [|o ops IH]; intros db Hdb; [done|].
  apply (IH (run_op o db)), well_formed_op, Hdb.
Qed.

#[global] Instance identity_kept_refl : Reflexive identity_kept.
Proof. intros db. split; [done|]. intros i r _ Hr. by exists r. Qed.

#[global] Instance identity_kept_trans : Transitive identity_kept.
Proof.
  intros db1 db2 db3 [Hn1 H1] [Hn2 H2]. split; [lia|].
  intros i r3 Hi Hr3. destruct (H2 i r3 ltac:(lia) Hr3) as (r2 & Hr2 & Hid2).
  destruct (H1 i r2 Hi Hr2) as (r1 & Hr1 & Hid1).
  exists r1. split; [done | by etrans].
Qed.

Lemma identity_kept_op (o : op) (db : DB) : identity_kept db (run_op o db).
Proof.
  destruct o as [topic task_id|env request_id|request_id].
  - destruct (submit_run topic task_id db) as (_ & _ & _ & Hnext & _).
    cbn zeta in Hnext. split; [lia|].
    intros i r' Hi. rewrite submit_row, lookup_insert_ne by lia. intros Hr. by exists r'.
  - unfold run_op.
    destruct (frame_start_research_workflow request_id env db)
      as (Hother & Hown & _ & Hnext).
    split; [lia|]. intros i r' _ Hr'.
    destruct (decide (i = request_id)) as [->|Hne].
    + rewrite Hr' in Hown. inversion Hown as [r ? Hid Hr|]; subst. by exists r.
    + rewrite Hother in Hr' by done. by exists r'.
  - destruct (delete_run request_id db) as (Hreq & Hnext & _).
    cbn zeta in Hreq, Hnext. split; [lia|]. intros i r' _ Hr'. exists r'. split; [auto | reflexivity].
Qed.

Lemma identity_kept_run (ops : list op) (db : DB) : identity_kept db (run_ops ops db).
Proof.
  revert db. induction ops as [|o ops IH]; intros db; [reflexivity|].
  etrans; [apply (identity_kept_op o) | apply IH].
Qed.
End RequestTable.

(** X4. In every store that submissions, workflow executions and deletions
    (any number, in any order, the same workflow as often as one likes) make
    from the empty store, each request is stored under its own id, and that
    id was given out by the counter; no request is left in processing once
    the operation on it has ended; a completed request has results and a
    completion time; and a pending request has no results, no completion
    time and no error message. *)
Theorem stored_requests_are_consistent (ops : list op) (i : nat) (r : ResearchRequest.t) :
  let db := run_ops ops empty_db in
  research_requests db !! i = Some r ->
  ResearchRequest.id r = i /\
  (i < next_request_id db)%nat /\
  ResearchRequest.status r <> ResearchStatus.PROCESSING /\
  (ResearchRequest.status r = ResearchStatus.COMPLETED ->
   is_Some (ResearchRequest.results r) /\ is_Some (ResearchRequest.completed_at r)) /\
  (ResearchRequest.status r = ResearchStatus.PENDING ->
   ResearchRequest.results r = None /\
   ResearchRequest.completed_at r = None /\
   ResearchRequest.error_message r = None).
Proof.
  intros db Hr.
  destruct (well_formed_run ops empty_db well_formed_init) as [_ Hrows].
  destruct (Hrows i r Hr) as (Hlt & Hid & Hproc & Hdone & Hpending).
  split; [exact Hid|]. split; [exact Hlt|]. split; [exact Hproc|].
  split; [exact Hdone | exact Hpending].
Qed.

Lemma stored_requests_are_consistent_witness :
  exists r,
    research_requests
      (run_ops [Submit "Quantum Computing" "task-1"; Work link_story_env 1;
                Work silent_fault_env 1] empty_db) !! 1%nat = Some r /\
    ResearchRequest.id r = 1%nat /\
    ResearchRequest.status r <> ResearchStatus.PROCESSING /\
    ResearchRequest.status r <> ResearchStatus.PENDING.
Proof.
  destruct (research_requests
              (run_ops [Submit "Quantum Computing" "task-1"; Work link_story_env 1;
                        Work silent_fault_env 1] empty_db) !! 1%nat)
    as [r|] eqn:Hr; [|vm_compute in Hr; discriminate Hr].
  destruct (stored_requests_are_consistent
              [Submit "Quantum Computing" "task-1"; Work link_story_env 1;
               Work silent_fault_env 1] 1 r Hr) as (Hid & _ & Hproc & _ & Hpending).
  exists r. split; [reflexivity|]. split; [exact Hid|]. split; [exact Hproc|].
  intros Hst. destruct (Hpending Hst) as (Hres & _).
  vm_compute in Hr. injection Hr as <-. discriminate Hres.
Defined.

(** X5. Over any sequence of submissions, workflow executions and deletions
    from any store, a request id that the counter has given out is never
    given to another request: a request found under such an id afterwards
    was there before, with the same id column, topic, task id and creation
    time.  So a request keeps its identity for as long as it exists, and
    one that was deleted does not come back. *)
Theorem request_identity_is_stable (ops : list op) (db : DB) (i : nat)
    (r' : ResearchRequest.t) :
  (i < next_request_id db)%nat ->
  research_requests (run_ops ops db) !! i = Some r' ->
  exists r,
    research_requests db !! i = Some r /\
    ResearchRequest.id r' = ResearchRequest.id r /\
    ResearchRequest.topic r' = ResearchRequest.topic r /\
    ResearchRequest.task_id r' = ResearchRequest.task_id r /\
    ResearchRequest.created_at r' = ResearchRequest.created_at r.
Proof.
  intros Hi Hr'.
  destruct (identity_kept_run ops db) as [_ Hkept].
  destruct (Hkept i r' Hi Hr') as (r & Hr & Hid).
  exists r. split; [exact Hr | exact Hid].
Qed.

Lemma request_identity_is_stable_witness :
  exists r r',
    research_requests sample_db !! 1%nat = Some r /\
    research_requests
      (run_ops [Work link_story_env 1; Submit "Rust" "task-2"; Delete 2] sample_db)
      !! 1%nat = Some r' /\
    ResearchRequest.topic r' = ResearchRequest.topic r.
Proof.
  destruct (research_requests
              (run_ops [Work link_story_env 1; Submit "Rust" "task-2"; Delete 2] sample_db)
              !! 1%nat) as [r'|] eqn:Hr'; [|vm_compute in Hr'; discriminate Hr'].
  destruct (request_identity_is_stable
              [Work link_story_env 1; Submit "Rust" "task-2"; Delete 2] sample_db 1 r')
    as (r & Hr & _ & Htopic & _).
  - vm_compute. lia.
  - exact Hr'.
  - exists r, r'. split; [exact Hr|]. split; [reflexivity | exact Htopic].
Defined.

(** ** Submitting, reading and deleting through the API *)










(** ** The article listing *)

Lemma StronglySorted_weaken {A} (R R' : A -> A -> Prop) (l : list A) :
  (forall a b, R a b -> R' a b) -> StronglySorted R l -> StronglySorted R' l.
Proof.
  intros Himpl. induction 1 as [|x l Hl IH Hx]; constructor; [done|].
  eapply Forall_impl; [exact Hx | auto].
Qed.

Lemma StronglySorted_take {A} (R : A -> A -> Prop) (n : nat) (l : list A) :
  StronglySorted R l -> StronglySorted R (take n l).
Proof.
  intros Hl. rewrite <- (take_drop n l) in Hl. by apply StronglySorted_app_1_l in Hl.
Qed.

(** Sorting by extraction time and then, stably, by score orders by score
    first and by extraction time among equal scores. *)
Lemma two_key_sort (rows : list Article.t) :
  StronglySorted ranks_before
    (sorted_reverse Article.relevance_score
       (sorted_reverse (fun a => - Article.extracted_at a) rows)).
Proof.
  set (by_time := sorted_reverse (fun a => - Article.extracted_at a) rows).
  apply (StronglySorted_weaken (sorted_stably Article.relevance_score by_time));
    [|apply sorted_reverse_stably].
  intros a b [Hlt|[Heq (i & j & Hij & Hi & Hj)]]; [by left|].
  right. split; [done|].
  pose proof (sorted_reverse_sorted (fun a => - Article.extracted_at a) rows) as Hsorted.
  pose proof (StronglySorted_lookup _ _ _ _ _ _ Hsorted Hij Hi Hj) as Hle.
  simpl in Hle. lia.
Qed.

(** X8. [get_articles] never fails and changes nothing.  It returns articles
    of the given request only, a higher score first and, among equal scores,
    the earlier extracted first.  Without a limit it returns every article
    of the request exactly once, and so it does for the limit 0, which the
    guard [if limit:] takes for no limit; for a limit [n > 0] it returns the
    first [n] of that listing, all of it when the request has no more than
    [n] articles. *)
Theorem get_articles_ranked (request_id : nat) (limit : option nat) (db : DB) :
  let listing := ResearchService.ranked_articles request_id None db in
  exists rows,
    ResearchService.get_articles request_id limit db = (Return rows, db) /\
    StronglySorted ranks_before rows /\
    (forall a, a ∈ rows ->
       a ∈ articles db /\ Article.research_request_id a = request_id) /\
    listing ≡ₚ ResearchService.articles_of request_id db /\
    (limit = None \/ limit = Some 0%nat -> rows = listing) /\
    (forall n, limit = Some n -> (0 < n)%nat ->
       rows = take n listing /\
       length rows = Nat.min n (length (ResearchService.articles_of request_id db))).
Proof.
  intros listing.
  assert (listing ≡ₚ ResearchService.articles_of request_id db) as Hperm.
  { unfold listing, ResearchService.ranked_articles. by rewrite !sorted_reverse_perm. }
  assert (StronglySorted ranks_before listing) as Hsorted by apply two_key_sort.
  assert (forall a, a ∈ listing ->
            a ∈ articles db /\ Article.research_request_id a = request_id) as Hown.
  { intros a Ha. rewrite Hperm in Ha. unfold ResearchService.articles_of in Ha.
    apply list_elem_of_In, filter_In in Ha as [Ha Hid].
    split; [by apply list_elem_of_In | by apply Nat.eqb_eq]. }
  exists (ResearchService.ranked_articles request_id limit db).
  split; [done|].
  destruct limit as [[|n]|]; cbn [ResearchService.ranked_articles]; fold listing.
  - split; [done|]. split; [done|]. split; [done|]. split; [done|].
    intros n [= <-] Hn. lia.
  - split; [by apply StronglySorted_take|].
    split; [intros a Ha%elem_of_take; destruct Ha as (i & Hi & _);
            apply Hown; by eapply list_elem_of_lookup_2|].
    split; [done|]. split; [by intros [?|?]|].
    intros m [= <-] _. split; [done|].
    rewrite length_take, <- (Permutation_length Hperm). reflexivity.
  - split; [done|]. split; [done|]. split; [done|]. split; [done|]. by intros n.
Qed.

Lemma get_articles_ranked_witness :
  exists rows,
    ResearchService.get_articles 1 (Some 1%nat)
      (snd (Workflow.start_research_workflow link_story_env 1 sample_db))
    = (Return rows, snd (Workflow.start_research_workflow link_story_env 1 sample_db)) /\
    length rows = 1%nat.
Proof.
  destruct (get_articles_ranked 1 (Some 1%nat)
              (snd (Workflow.start_research_workflow link_story_env 1 sample_db)))
    as (rows & Hget & _ & _ & _ & _ & Hlimit).
  destruct (Hlimit 1%nat) as [_ Hlen]; [reflexivity | lia |].
  exists rows. split; [exact Hget|]. rewrite Hlen. vm_compute. reflexivity.
Defined.

(** ** The log table under an update *)





(** ** Pagination *)

Section Pagination.
Context (status_is : string -> ResearchStatus.t -> bool).

Lemma ceil_div_bounds (total size : nat) :
  (1 <= size)%nat ->
  (total <= Listing.ceil_div total size * size)%nat /\
  (0 < total -> (Listing.ceil_div total size - 1) * size < total)%nat /\
  (total = 0%nat -> Listing.ceil_div total size = 0%nat).
Proof.
  intros Hsize. unfold Listing.ceil_div.
  pose proof (Nat.div_mod_eq (total + size - 1) size) as Hdiv.
  pose proof (Nat.mod_upper_bound (total + size - 1) size ltac:(lia)) as Hmod.
  split; [nia|]. split; [nia|].
  intros ->. apply Nat.div_small. lia.
Qed.

(** Consecutive slices of one length make up a prefix. *)
Lemma concat_slices {A} (l : list A) (s n : nat) :
  concat (map (fun k => take s (drop (k * s) l)) (seq 0 n)) = take (n * s) l.
Proof.
  induction n as [|n IH]; [done|].
  rewrite seq_S, map_app, concat_app, IH. simpl. rewrite app_nil_r.
  rewrite take_take_drop. f_equal. lia.
Qed.

Lemma list_research_requests_run (page size : nat) (status : option string) (db : DB) :
  Listing.list_research_requests status_is page size status db
  = (Routes.OK
       (Listing.mk_page
          (take size (drop ((page - 1) * size) (Listing.newest_first status_is status db)))
          (length (Listing.query status_is status db)) page size
          (Listing.ceil_div (length (Listing.query status_is status db)) size)),
     db).
Proof. done. Qed.



(** X11. Reading the pages 1, 2, ... up to the number of pages that the
    answers announce gives every request that passes the status filter
    exactly once, the newest first; no request is skipped and none is
    shown on two pages. *)
Theorem pages_cover_the_listing (size : nat) (status : option string) (db : DB) :
  (1 <= size)%nat ->
  let pages := Listing.ceil_div (length (Listing.query status_is status db)) size in
  let shown :=
    concat (map (Listing.items_of_page status_is size status db) (seq 1 pages)) in
  shown = Listing.newest_first status_is status db /\
  shown ≡ₚ Listing.query status_is status db /\
  StronglySorted
    (fun a b => ResearchRequest.created_at b <= ResearchRequest.created_at a) shown.
Proof.
  intros Hsize pages shown.
  assert (shown = Listing.newest_first status_is status db) as Hshown.
  { subst shown. unfold Listing.items_of_page.
    rewrite <- seq_shift, map_map.
    erewrite map_ext; [|intros k; rewrite list_research_requests_run; cbn;
                        rewrite Nat.sub_0_r; reflexivity].
    rewrite (concat_slices (Listing.newest_first status_is status db) size pages).
    apply take_ge. unfold Listing.newest_first at 1. rewrite sorted_reverse_length.
    by destruct (ceil_div_bounds (length (Listing.query status_is status db)) size Hsize)
      as (Hupper & _). }
  split; [done|]. rewrite Hshown.
  split; [apply sorted_reverse_perm | apply sorted_reverse_sorted].
Qed.

End Pagination.


Lemma pages_cover_the_listing_witness :
  concat (map (Listing.items_of_page by_value 1 None
                 (run_ops [Submit "Rust" "task-2"; Submit "Go" "task-3"] sample_db))
              (seq 1 3))
  = Listing.newest_first by_value None
      (run_ops [Submit "Rust" "task-2"; Submit "Go" "task-3"] sample_db).
Proof.
  exact (proj1 (pages_cover_the_listing by_value 1 None
                  (run_ops [Submit "Rust" "task-2"; Submit "Go" "task-3"] sample_db)
                  ltac:(lia))).
Defined.

(** ** The Hacker News search *)

Section HackerNews.
Import HackerNewsService.
Context (w : api) (search_terms : list string) (limit : nat).







End HackerNews.





Example ex_search_stories :
  map Candidate.title (fst (HackerNewsService.search_stories sample_hn "QUANTUM computing" 2))
    = ["Quantum supremacy"; "Quantum supremacy"] /\
  map Candidate.relevance_score
      (fst (HackerNewsService.search_stories sample_hn "QUANTUM computing" 2)) = [60; 100] /\
  snd (HackerNewsService.search_stories sample_hn "QUANTUM computing" 2) = seq 1 10 /\
  snd (HackerNewsService.search_stories sample_hn "haskell" 2) = seq 1 50.
Proof. vm_compute. by repeat split. Qed.

Example ex_search_articles :
  map Candidate.content (WikipediaService.search_articles sample_wiki "quantum" 3)
  = ["A quantum computer exploits superposition. It computes."].
Proof. vm_compute. reflexivity. Qed.



(** ** The aggregator on the two providers *)







